(** * flora.vectorize: the retrieval-augmented prompt pipeline

    A shallow embedding of [src/flora/vectorize.py]: the indexer
    [add_sentences_to_chromadb], the preflight check
    [_ensure_ollama_available] and the answerer [call_llama_with_context],
    together with the Python built-ins and standard-library functions they
    call ([str.strip], [str.join], [str.split], [textwrap.dedent], the
    formatting of an [int]).

    Python strings are modelled by [string]; a character is a code point
    below 256.  The vector store and the host that runs the [ollama]
    executable are collaborators outside the repository: they are oracles
    the functions are run against, and every call made to them is logged. *)

From Stdlib Require Import String Ascii List ZArith Lia Bool.
From Stdlib Require Import DecimalString DecimalZ FinFun.
Import ListNotations.

#[local] Open Scope list_scope.
#[local] Open Scope string_scope.

(** ** Python built-ins on strings *)

Module Py.

(** The line feed, and the one-character string that holds it. *)
Definition lf : ascii := "010"%char.
Definition NL : string := String lf "".

(** The one-character string that holds the double quote (code 34). *)
Definition dquote : string := String (ascii_of_nat 34) "".

(** [c.isspace()] for a code point below 256: the ASCII controls 9..13 and
    28..31, the space, NEL (133) and the no-break space (160). *)
Definition isspace (c : ascii) : bool :=
  let n := nat_of_ascii c in
  ((9 <=? n) && (n <=? 13) || (28 <=? n) && (n <=? 32)
   || (n =? 133) || (n =? 160))%nat.

(** [s.lstrip()], [s.rstrip()] and [s.strip()] with no argument. *)
Fixpoint lstrip (s : string) : string :=
  match s with
  | "" => ""
  | String c s' => if isspace c then lstrip s' else s
  end.

Fixpoint rstrip (s : string) : string :=
  match s with
  | "" => ""
  | String c s' =>
      match rstrip s' with
      | "" => if isspace c then "" else String c ""
      | r => String c r
      end
  end.

Definition strip (s : string) : string := rstrip (lstrip s).

(** [sep.join(ls)]. *)
Definition join (sep : string) (ls : list string) : string :=
  String.concat sep ls.

(** [s.split("\n")]: the result is never empty. *)
Fixpoint split_lines (s : string) : list string :=
  match s with
  | "" => [""]
  | String c s' =>
      if Ascii.eqb c lf then "" :: split_lines s'
      else match split_lines s' with
           | l :: ls => String c l :: ls
           | [] => [String c ""]
           end
  end.

(** [sub in s]. *)
Fixpoint contains (sub s : string) : bool :=
  String.prefix sub s
  || match s with
     | "" => false
     | String _ s' => contains sub s'
     end.

(** [s[n:]]. *)
Fixpoint drop (n : nat) (s : string) : string :=
  match n, s with
  | O, _ => s
  | S n', String _ s' => drop n' s'
  | S _, "" => ""
  end.

(** Every character is whitespace; the first one is; the last one is. *)
Fixpoint all_space (s : string) : bool :=
  match s with
  | "" => true
  | String c s' => isspace c && all_space s'
  end.

Definition starts_with_space (s : string) : bool :=
  match s with
  | "" => false
  | String c _ => isspace c
  end.

Fixpoint ends_with_space (s : string) : bool :=
  match s with
  | "" => false
  | String c "" => isspace c
  | String _ s' => ends_with_space s'
  end.

(** The string has a line feed in it. *)
Fixpoint has_lf (s : string) : bool :=
  match s with
  | "" => false
  | String c s' => Ascii.eqb c lf || has_lf s'
  end.

(** [str(i)] and the [{i}] of an f-string, for an [int]. *)
Definition str_int (i : Z) : string := NilEmpty.string_of_int (Z.to_int i).

(** [range(n)]. *)
Definition range (n : nat) : list nat := seq 0 n.

(** *** [textwrap.dedent]

    The standard library's algorithm: lines made of spaces and tabs only are
    emptied; the margin is the longest run of spaces and tabs that starts
    every other non-empty line; the margin, when it is not empty, is removed
    from the start of every line that has it. *)

(** A space or a tab, the character class of both regular expressions. *)
Definition is_blank (c : ascii) : bool :=
  Ascii.eqb c " " || Ascii.eqb c "009".

Fixpoint all_blank (l : string) : bool :=
  match l with
  | "" => true
  | String c l' => is_blank c && all_blank l'
  end.

(** [_whitespace_only_re.sub('', text)], on one line. *)
Definition whitespace_only_sub (l : string) : string :=
  if all_blank l then "" else l.

(** The captured group of [_leading_whitespace_re] on one line: its leading
    spaces and tabs. *)
Fixpoint leading_blanks (l : string) : string :=
  match l with
  | String c l' => if is_blank c then String c (leading_blanks l') else ""
  | "" => ""
  end.

(** [_leading_whitespace_re.findall(text)]: one indent for each line that
    has a character other than a space or a tab. *)
Fixpoint indents (ls : list string) : list string :=
  match ls with
  | [] => []
  | l :: ls' =>
      if all_blank l then indents ls' else leading_blanks l :: indents ls'
  end.

(** The inner [for i, (x, y) in enumerate(zip(margin, indent))] loop: the
    margin is cut at the first position where the two differ, and is left
    as it is when [zip] runs out first. *)
Fixpoint zip_cut (margin indent : string) : string :=
  match margin, indent with
  | String x m', String y i' =>
      if Ascii.eqb x y then String x (zip_cut m' i') else ""
  | _, _ => margin
  end.

(** One turn of the [for indent in indents] loop. *)
Definition update_margin (margin : option string) (indent : string)
  : option string :=
  match margin with
  | None => Some indent
  | Some m =>
      if String.prefix m indent then Some m
      else if String.prefix indent m then Some indent
      else Some (zip_cut m indent)
  end.

Definition find_margin (ls : list string) : option string :=
  fold_left update_margin (indents ls) None.

(** [re.sub(r'(?m)^' + margin, '', text)], on one line. *)
Definition remove_margin (margin l : string) : string :=
  if String.prefix margin l then drop (String.length margin) l else l.

Definition dedent (text : string) : string :=
  let ls := map whitespace_only_sub (split_lines text) in
  match find_margin ls with
  | Some (String c m) => join NL (map (remove_margin (String c m)) ls)
  | _ => join NL ls
  end.

(** *** Line-wise views

    [f] applied to every line of a text, and what emptying the blank lines
    leaves of a value that was interpolated behind other text on its first
    line: that line is kept, the later ones are emptied when they hold
    spaces and tabs only. *)

Definition map_lines (f : string -> string) (s : string) : string :=
  join NL (map f (split_lines s)).

Definition tail_blanks_emptied (s : string) : string :=
  match split_lines s with
  | l :: ls => join NL (l :: map whitespace_only_sub ls)
  | [] => ""
  end.

(** [p] put in front of the first line. *)
Definition prepend (p : string) (ls : list string) : list string :=
  match ls with
  | l :: ls' => (p ++ l) :: ls'
  | [] => [p]
  end.

End Py.

Import Py.

(** ** Faults and calls to the outside *)

(** A raised Python exception: whether it is an instance of [Exception]
    (what [except Exception] catches; [KeyboardInterrupt] and [SystemExit]
    are not) and its [str(e)]. *)
Record PyExc : Type := { exc_is_Exception : bool; exc_str : string }.

Inductive outcome (A : Type) : Type :=
| Returned (a : A)
| Raised (e : PyExc).

Arguments Returned {A} a.
Arguments Raised {A} e.

(** A computation over a world [W]: it returns or raises, and leaves a new
    world behind in both cases. *)
Definition M (W A : Type) : Type := W -> outcome A * W.

Definition ret {W A : Type} (a : A) : M W A := fun w => (Returned a, w).

Definition bind {W A B : Type} (m : M W A) (k : A -> M W B) : M W B :=
  fun w =>
    match m w with
    | (Returned a, w') => k a w'
    | (Raised e, w') => (Raised e, w')
    end.

(** [try: x = body / except Exception as e: handler(e)] followed by [rest(x)]:
    the handler takes the faults that are instances of [Exception], the
    others pass through, and [rest] runs outside the [try]. *)
Definition try_except_Exception {W A B : Type}
  (body : M W A) (handler : PyExc -> M W B) (rest : A -> M W B) : M W B :=
  fun w =>
    match body w with
    | (Returned a, w') => rest a w'
    | (Raised e, w') =>
        if exc_is_Exception e then handler e w' else (Raised e, w')
    end.

Declare Scope py_scope.
Delimit Scope py_scope with py.
Notation "x <- m ;; k" := (bind m (fun x => k))
  (at level 61, m at next level, right associativity) : py_scope.

(** ** The indexer *)

Module Chroma.

Section Indexer.

(** The vector store: its state, its client and collection handles, and
    the three entry points the indexer uses. *)
Variables (S Client Collection : Type).

Record VectorStore : Type := {
  (** [chromadb.Client(Settings(anonymized_telemetry=b))] *)
  new_client : bool -> S -> outcome Client * S;
  (** [client.get_or_create_collection(name=name)] *)
  get_or_create_collection : Client -> string -> S -> outcome Collection * S;
  (** [collection.add(documents=documents, ids=ids)] *)
  collection_add :
    Collection -> list string -> list string -> S -> outcome unit * S
}.

Inductive StoreCall : Type :=
| CallClient (anonymized_telemetry : bool)
| CallGetOrCreate (client : Client) (name : string)
| CallAdd (collection : Collection) (documents ids : list string).

(** The store and the calls made to it so far, oldest first. *)
Record World : Type := { store : S; calls : list StoreCall }.

Variable vs : VectorStore.

Definition call {A : Type} (c : StoreCall) (op : S -> outcome A * S)
  : M World A :=
  fun w =>
    let (r, s') := op (store w) in
    (r, {| store := s'; calls := (calls w ++ [c])%list |}).

(** [[f"sentence-{i}" for i in range(len(sentences))]] *)
Definition sentence_ids (sentences : list string) : list string :=
  map (fun i => "sentence-" ++ str_int (Z.of_nat i))
      (range (List.length sentences)).

Definition default_collection_name : string := "sentences_collection".

Definition add_sentences_to_chromadb
  (sentences : list string) (collection_name : string)
  : M World Collection :=
  (client <- call (CallClient false) (new_client vs false) ;;
   collection <- call (CallGetOrCreate client collection_name)
                      (get_or_create_collection vs client collection_name) ;;
   let ids := sentence_ids sentences in
   _ <- call (CallAdd collection sentences ids)
             (collection_add vs collection sentences ids) ;;
   ret collection)%py.

(** The faults of the store on the way through the indexer: the first call
    that raises, with what it raised. *)
Inductive store_fault (sentences : list string) (name : string) (w : World)
  : PyExc -> list StoreCall -> Prop :=
| fault_client e s1 :
    new_client vs false (store w) = (Raised e, s1) ->
    store_fault sentences name w e [CallClient false]
| fault_create cl s1 e s2 :
    new_client vs false (store w) = (Returned cl, s1) ->
    get_or_create_collection vs cl name s1 = (Raised e, s2) ->
    store_fault sentences name w e [CallClient false; CallGetOrCreate cl name]
| fault_add cl s1 c s2 e s3 :
    new_client vs false (store w) = (Returned cl, s1) ->
    get_or_create_collection vs cl name s1 = (Returned c, s2) ->
    collection_add vs c sentences (sentence_ids sentences) s2 = (Raised e, s3) ->
    store_fault sentences name w e
      [CallClient false; CallGetOrCreate cl name;
       CallAdd c sentences (sentence_ids sentences)].

End Indexer.

Arguments store {S Client Collection} w.
Arguments calls {S Client Collection} w.
Arguments CallClient {Client Collection} anonymized_telemetry.
Arguments CallGetOrCreate {Client Collection} client name.
Arguments CallAdd {Client Collection} collection documents ids.
Arguments sentence_ids sentences : clear implicits.
Arguments new_client {S Client Collection} v _ _.
Arguments get_or_create_collection {S Client Collection} v _ _ _.
Arguments collection_add {S Client Collection} v _ _ _ _.
Arguments add_sentences_to_chromadb {S Client Collection} vs sentences collection_name _.
Arguments store_fault {S Client Collection} vs sentences name w _ _.

(** *** Stub stores

    An in-memory store for running the indexer: a collection is named by its
    handle and holds its [(id, document)] entries in insertion order.  The
    strict variant validates the batch as ChromaDB does and raises
    [ValueError] on an empty list of identifiers. *)

Definition Entries : Type := list (string * string).
Definition StubState : Type := list (string * Entries).

Fixpoint lookup (name : string) (s : StubState) : option Entries :=
  match s with
  | [] => None
  | (n, es) :: s' => if String.eqb n name then Some es else lookup name s'
  end.

Fixpoint extend (name : string) (new : Entries) (s : StubState) : StubState :=
  match s with
  | [] => []
  | (n, es) :: s' =>
      if String.eqb n name then (n, (es ++ new)%list) :: s'
      else (n, es) :: extend name new s'
  end.

Definition stub_get_or_create (_ : unit) (name : string) (s : StubState)
  : outcome string * StubState :=
  match lookup name s with
  | Some _ => (Returned name, s)
  | None => (Returned name, (s ++ [(name, [])])%list)
  end.

Definition ValueError (msg : string) : PyExc :=
  {| exc_is_Exception := true; exc_str := msg |}.

Definition stub_add (strict : bool) (c : string) (documents ids : list string)
  (s : StubState) : outcome unit * StubState :=
  if strict && (List.length ids =? 0)%nat then
    (Raised (ValueError "Expected IDs to be a non-empty list, got 0 IDs"), s)
  else (Returned tt, extend c (combine ids documents) s).

Definition stub_store (strict : bool) : VectorStore StubState unit string :=
  {| new_client := fun _ s => (Returned tt, s);
     get_or_create_collection := stub_get_or_create;
     collection_add := stub_add strict |}.

Definition fresh : World StubState unit string :=
  {| store := []; calls := [] |}.

End Chroma.

(** ** The answerer *)

Module Ollama.

(** What [subprocess.run(..., capture_output=True, text=True)] returns. *)
Record CompletedProcess : Type :=
  { returncode : Z; stdout : string; stderr : string }.

(** The execution environment: what [shutil.which] finds, and what running
    a command line on a given standard input does (the launch raises, or
    the process runs to its exit). *)
Record Host : Type := {
  which : string -> option string;
  launch : list string -> string -> outcome CompletedProcess
}.

(** The [subprocess.run] calls made so far, oldest first: the command line
    and the standard input. *)
Definition Spawned : Type := list (list string * string).

Section Answerer.

Variable host : Host.

Definition subprocess_run (args : list string) (input : string)
  : M Spawned CompletedProcess :=
  fun log => (launch host args input, (log ++ [(args, input)])%list).

Definition missing_message : string :=
  "Ollama CLI not found. Please install from https://ollama.com and ensure "
  ++ dquote ++ "ollama" ++ dquote ++ " is on your PATH.".

Definition _ensure_ollama_available : option string :=
  match which host "ollama" with
  | None => Some missing_message
  | Some _ => None
  end.

(** ["\n\n".join(f"- {d}" for d in retrieved_docs)] *)
Definition context_block (retrieved_docs : list string) : string :=
  join (NL ++ NL) (map (fun d => "- " ++ d) retrieved_docs).

(** The f-string handed to [textwrap.dedent], with both values
    interpolated. *)
Definition prompt_template (question : string) (block : string) : string :=
  NL
  ++ "        You are a helpful assistant. Use only the provided context to answer the user's" ++ NL
  ++ "        question. If the answer is not in the context, say you don't know." ++ NL
  ++ NL
  ++ "        Context:" ++ NL
  ++ "        " ++ block ++ NL
  ++ NL
  ++ "        Question: " ++ question ++ NL
  ++ "        Answer:" ++ NL
  ++ "        ".

Definition prompt (question : string) (retrieved_docs : list string)
  : string :=
  strip (dedent (prompt_template question (context_block retrieved_docs))).

(** The layout of a prompt: the template's lines with [indent] before each
    of them but the first, the bullets with a blank line between them (the
    line is empty when there is none), the question and the cue. *)
Definition context_lines (indent : string) (bullets : list string) : string :=
  match bullets with
  | [] => ""
  | _ :: _ => indent ++ join (NL ++ NL) bullets
  end.

Definition prompt_layout (indent : string) (bullets : list string)
  (question : string) : string :=
  "You are a helpful assistant. Use only the provided context to answer the user's" ++ NL
  ++ indent ++ "question. If the answer is not in the context, say you don't know." ++ NL
  ++ NL
  ++ indent ++ "Context:" ++ NL
  ++ context_lines indent bullets ++ NL
  ++ NL
  ++ indent ++ "Question: " ++ question ++ NL
  ++ indent ++ "Answer:".

(** The template's indentation, eight spaces. *)
Definition indent8 : string := "        ".

Definition call_llama_with_context
  (question : string) (retrieved_docs : list string) : M Spawned string :=
  let generate : M Spawned string :=
    try_except_Exception
      (subprocess_run ["ollama"; "run"; "llama3.1"]
                      (prompt question retrieved_docs))
      (fun e => ret ("Failed to invoke Ollama: " ++ exc_str e))
      (fun proc =>
         if negb (returncode proc =? 0)%Z then
           ret ("Ollama returned non-zero exit code "
                ++ str_int (returncode proc) ++ ": " ++ strip (stderr proc))
         else ret (strip (stdout proc)))
  in
  match _ensure_ollama_available with
  | Some missing =>
      if String.eqb missing "" then generate else ret missing
  | None => generate
  end.

End Answerer.

(** *** Stub hosts

    A host for running the answerer: [shutil.which] finds [path] for every
    name, and every launch has the given outcome. *)

Definition stub_host (path : option string) (run : outcome CompletedProcess)
  : Host :=
  {| which := fun _ => path; launch := fun _ _ => run |}.

Definition OSError (msg : string) : PyExc :=
  {| exc_is_Exception := true; exc_str := msg |}.

End Ollama.

(** ** The script

    The block under [if __name__ == "__main__"]: index the four sentences,
    query the collection for the three nearest to the question, list what
    came back, ask the model and print its answer. *)

Module Script.

Import Chroma Ollama.

(** The value under a key of the query result, as far as the script looks
    at it: [None], or a list whose elements are lists of documents (one per
    query text) or something that is no list. *)
Inductive Row : Type :=
| RowList (documents : list string)
| RowNone.

Inductive Value : Type :=
| VNone
| VRows (rows : list Row).

(** The result of [collection.query], a dictionary. *)
Definition QueryResult : Type := list (string * Value).

(** [d.get(key, default)] *)
Fixpoint dict_get (key : string) (default : Value) (d : QueryResult) : Value :=
  match d with
  | [] => default
  | (k, v) :: d' => if String.eqb k key then v else dict_get key default d'
  end.

(** [retrieved = results.get("documents", [[]])] and
    [retrieved[0] if retrieved and isinstance(retrieved[0], list) else []] *)
Definition top_docs_of (results : QueryResult) : list string :=
  let retrieved := dict_get "documents" (VRows [RowList []]) results in
  match retrieved with
  | VRows (RowList documents :: _) => documents
  | _ => []
  end.

(** [enumerate(l, start)] *)
Definition enumerate {A : Type} (l : list A) (start : nat) : list (nat * A) :=
  combine (seq start (List.length l)) l.

(** The numbered lines the loop prints for [docs], the first number being
    [start], each with its line feed. *)
Fixpoint listing (start : nat) (docs : list string) : string :=
  match docs with
  | [] => ""
  | d :: docs' =>
      "  " ++ str_int (Z.of_nat start) ++ ". " ++ d ++ NL
      ++ listing (S start) docs'
  end.

Definition sentences : list string :=
  ["How are you?"; "What did you do today?";
   "What did you have for dinner?"; "What's on your agenda?"].

Definition user_question : string := "What did you have for dinner?".

(** An interrupt of the interpreter: a fault that is no [Exception]. *)
Definition KeyboardInterrupt : PyExc :=
  {| exc_is_Exception := false; exc_str := "" |}.

Section Program.

Variables (S Client Collection : Type).
Variable vs : VectorStore S Client Collection.

(** [collection.query(query_texts=..., n_results=...)] *)
Variable query :
  Collection -> list string -> nat -> S -> outcome QueryResult * S.

Variable host : Host.

(** A run of the script: the store with the calls made to it, the queries
    made, the processes started and the text written to standard output. *)
Record Run : Type := {
  run_db : World S Client Collection;
  run_queries : list (Collection * list string * nat);
  run_spawned : Spawned;
  run_out : string
}.

Definition on_db {A : Type} (m : M (World S Client Collection) A) : M Run A :=
  fun r =>
    let (o, w') := m (run_db r) in
    (o, {| run_db := w'; run_queries := run_queries r;
           run_spawned := run_spawned r; run_out := run_out r |}).

Definition on_host {A : Type} (m : M Spawned A) : M Run A :=
  fun r =>
    let (o, log') := m (run_spawned r) in
    (o, {| run_db := run_db r; run_queries := run_queries r;
           run_spawned := log'; run_out := run_out r |}).

Definition collection_query (c : Collection) (query_texts : list string)
  (n_results : nat) : M Run QueryResult :=
  fun r =>
    let (o, s') := query c query_texts n_results (store (run_db r)) in
    (o, {| run_db := {| store := s'; calls := calls (run_db r) |};
           run_queries :=
             (run_queries r ++ [(c, query_texts, n_results)])%list;
           run_spawned := run_spawned r; run_out := run_out r |}).

(** [print(s)]: the text and a line feed. *)
Definition print (s : string) : M Run unit :=
  fun r =>
    (Returned tt,
     {| run_db := run_db r; run_queries := run_queries r;
        run_spawned := run_spawned r; run_out := run_out r ++ s ++ NL |}).

(** [for x in l: body(x)] *)
Fixpoint for_each {A : Type} (l : list A) (body : A -> M Run unit)
  : M Run unit :=
  match l with
  | [] => ret tt
  | x :: l' => (_ <- body x ;; for_each l' body)%py
  end.

Definition main : M Run unit :=
  (collection <- on_db (add_sentences_to_chromadb vs sentences
                          default_collection_name) ;;
   results <- collection_query collection [user_question] 3 ;;
   let top_docs := top_docs_of results in
   _ <- print "Retrieved context:" ;;
   _ <- for_each (enumerate top_docs 1)
          (fun p => print ("  " ++ str_int (Z.of_nat (fst p)) ++ ". "
                           ++ snd p)) ;;
   _ <- print (NL ++ "Asking llama3.1 with retrieved context..." ++ NL) ;;
   answer <- on_host (call_llama_with_context host user_question top_docs) ;;
   print ("Answer:" ++ NL ++ answer))%py.

End Program.

Arguments run_db {S Client Collection} r.
Arguments run_queries {S Client Collection} r.
Arguments run_spawned {S Client Collection} r.
Arguments run_out {S Client Collection} r.
Arguments main {S Client Collection} vs query host _.

(** *** A stub query

    The stub store's [query]: the documents of the collection in insertion
    order, at most [n_results] of them, once for every query text. *)
Definition stub_query (c : string) (query_texts : list string)
  (n_results : nat) (s : StubState) : outcome QueryResult * StubState :=
  match lookup c s with
  | Some es =>
      (Returned [("ids", VRows (map (fun _ => RowList (firstn n_results (map fst es)))
                                    query_texts));
                 ("documents",
                  VRows (map (fun _ => RowList (firstn n_results (map snd es)))
                             query_texts))],
       s)
  | None =>
      (Raised (ValueError "Collection does not exist."), s)
  end.

Definition start : Run StubState unit string :=
  {| run_db := fresh; run_queries := []; run_spawned := []; run_out := "" |}.

(** A store that cannot be reached, and a query that fails. *)
Definition unreachable_store : VectorStore StubState unit string :=
  {| new_client :=
       fun _ s => (Raised (ValueError "Could not connect to the store"), s);
     get_or_create_collection := stub_get_or_create;
     collection_add := stub_add false |}.

Definition failing_query (c : string) (query_texts : list string)
  (n_results : nat) (s : StubState) : outcome QueryResult * StubState :=
  (Raised (ValueError "Query failed"), s).

End Script.

(** * Properties *)

Import Chroma Ollama.

(** ** Strings *)

(** The built-ins on a few inputs, as Python evaluates them. *)

Example strip_ex : strip (" " ++ NL ++ "  a b " ++ NL) = "a b".
Proof. reflexivity. Qed.

Example split_ex : split_lines ("a" ++ NL ++ NL ++ "b" ++ NL) = ["a"; ""; "b"; ""].
Proof. reflexivity. Qed.

Example str_int_ex :
  map str_int [0; 7; 10; 1234; -1; -20]%Z = ["0"; "7"; "10"; "1234"; "-1"; "-20"].
Proof. reflexivity. Qed.

Example dedent_ex :
  dedent (NL ++ "    a" ++ NL ++ "   " ++ NL ++ "      b" ++ NL ++ "  ")
  = NL ++ "a" ++ NL ++ NL ++ "  b" ++ NL.
Proof. reflexivity. Qed.

Example dedent_ex_column_zero :
  dedent ("    a" ++ NL ++ "b") = "    a" ++ NL ++ "b".
Proof. reflexivity. Qed.

Lemma sapp_assoc (a b c : string) : (a ++ b) ++ c = a ++ (b ++ c).
Proof. induction a as [|x a IH]; simpl; [reflexivity | now rewrite IH]. Qed.

Lemma sapp_nil_r (a : string) : a ++ "" = a.
Proof. induction a as [|x a IH]; simpl; [reflexivity | now rewrite IH]. Qed.

Lemma prefix_app (b c : string) : String.prefix b (b ++ c) = true.
Proof.
  induction b as [|x b IH]; simpl.
  - now destruct c.
  - destruct (ascii_dec x x) as [_|N]; [exact IH | now destruct N].
Qed.

Lemma contains_eq (sub s : string) :
  contains sub s
  = String.prefix sub s
    || match s with "" => false | String _ s' => contains sub s' end.
Proof. now destruct s. Qed.

Lemma contains_prefix (b c : string) : contains b (b ++ c) = true.
Proof. rewrite contains_eq, prefix_app. reflexivity. Qed.

Lemma contains_app (a b c : string) : contains b (a ++ b ++ c) = true.
Proof.
  induction a as [|x a IH].
  - change ("" ++ b ++ c) with (b ++ c). apply contains_prefix.
  - change (String x a ++ b ++ c) with (String x (a ++ b ++ c)).
    rewrite contains_eq, IH. apply orb_true_r.
Qed.

Lemma contains_suffix (a b : string) : contains b (a ++ b) = true.
Proof. rewrite <- (sapp_nil_r b) at 2. apply contains_app. Qed.

(** *** [strip] *)

Lemma lstrip_spec (s : string) :
  exists l, s = l ++ lstrip s /\ all_space l = true
            /\ starts_with_space (lstrip s) = false.
Proof.
  induction s as [|c s IH]; simpl.
  - exists "". now repeat split.
  - destruct (isspace c) eqn:Hc.
    + destruct IH as (l & E & A & B). exists (String c l). simpl.
      rewrite Hc, A. repeat split; [now rewrite <- E | exact B].
    + exists "". simpl. now repeat split.
Qed.

Lemma rstrip_spec (s : string) :
  exists r, s = rstrip s ++ r /\ all_space r = true
            /\ ends_with_space (rstrip s) = false.
Proof.
  induction s as [|c s IH]; simpl.
  - exists "". now repeat split.
  - destruct IH as (r & E & A & B).
    destruct (rstrip s) as [|c' r'] eqn:Hr.
    + simpl in E. subst r. destruct (isspace c) eqn:Hc.
      * exists (String c s). simpl. now rewrite Hc, A.
      * exists s. simpl. now rewrite Hc.
    + exists r. simpl. repeat split; [now rewrite E at 1 | exact A | exact B].
Qed.

Lemma rstrip_keeps_head (s : string) :
  starts_with_space s = false -> starts_with_space (rstrip s) = false.
Proof.
  destruct s as [|c s]; simpl; [reflexivity|]. intros Hc.
  destruct (rstrip s); [now rewrite Hc | exact Hc].
Qed.

Lemma strip_spec (s : string) :
  exists l r, s = l ++ strip s ++ r
              /\ all_space l = true /\ all_space r = true
              /\ starts_with_space (strip s) = false
              /\ ends_with_space (strip s) = false.
Proof.
  destruct (lstrip_spec s) as (l & El & Al & Bl).
  destruct (rstrip_spec (lstrip s)) as (r & Er & Ar & Br).
  exists l, r. unfold strip. repeat split; try assumption.
  - now rewrite <- Er.
  - now apply rstrip_keeps_head.
Qed.

(** *** Decimal numerals *)

Lemma string_of_int_inj (d d' : Decimal.int) :
  NilEmpty.string_of_int d = NilEmpty.string_of_int d' -> d = d'.
Proof.
  intros E. apply (f_equal NilEmpty.int_of_string) in E.
  rewrite !NilEmpty.isi in E. now injection E.
Qed.

Lemma str_int_inj (i j : Z) : str_int i = str_int j -> i = j.
Proof.
  unfold str_int. intros E. apply DecimalZ.to_int_inj.
  now apply string_of_int_inj.
Qed.

Lemma sapp_inv_head (p a b : string) : p ++ a = p ++ b -> a = b.
Proof.
  induction p as [|x p IH]; simpl; intros E; [exact E|].
  injection E. exact IH.
Qed.

(** ** The indexer *)

Section IndexerFacts.

Context {S Client Collection : Type}.
Variable vs : VectorStore S Client Collection.

Abbreviation World := (World S Client Collection).
Abbreviation index := (add_sentences_to_chromadb vs).

Lemma length_sentence_ids (sentences : list string) :
  List.length (sentence_ids sentences) = List.length sentences.
Proof. unfold sentence_ids, range. now rewrite length_map, length_seq. Qed.

Lemma nth_error_sentence_ids (sentences : list string) (i : nat) :
  (i < List.length sentences)%nat ->
  nth_error (sentence_ids sentences) i
  = Some ("sentence-" ++ str_int (Z.of_nat i)).
Proof.
  intros Hi. unfold sentence_ids, range.
  rewrite nth_error_map, nth_error_seq.
  destruct (Nat.ltb_spec i (List.length sentences)); [reflexivity | lia].
Qed.

Lemma NoDup_sentence_ids (sentences : list string) :
  NoDup (sentence_ids sentences).
Proof.
  unfold sentence_ids, range. apply Injective_map_NoDup.
  - intros i j E. apply sapp_inv_head, str_int_inj in E. lia.
  - apply seq_NoDup.
Qed.

(** The run of the indexer once the client and the collection are there:
    one [add], whose outcome decides the result. *)
Lemma index_after_create (sentences : list string) (name : string)
  (w : World) (cl : Client) (s1 : S) (c : Collection) (s2 : S) :
  new_client vs false (store w) = (Returned cl, s1) ->
  get_or_create_collection vs cl name s1 = (Returned c, s2) ->
  index sentences name w
  = let ids := sentence_ids sentences in
    let log := (calls w ++ [CallClient false; CallGetOrCreate cl name;
                            CallAdd c sentences ids])%list in
    match collection_add vs c sentences ids s2 with
    | (Returned _, s3) => (Returned c, {| store := s3; calls := log |})
    | (Raised e, s3) => (Raised e, {| store := s3; calls := log |})
    end.
Proof.
  intros Hcl Hc. unfold add_sentences_to_chromadb, bind, call, ret.
  rewrite Hcl. cbn. rewrite Hc. cbn.
  destruct (collection_add vs c sentences (sentence_ids sentences) s2)
    as [[[]|e] s3]; cbn; rewrite <- !app_assoc; reflexivity.
Qed.

Lemma index_client_fails (sentences : list string) (name : string)
  (w : World) (e : PyExc) (s1 : S) :
  new_client vs false (store w) = (Raised e, s1) ->
  index sentences name w
  = (Raised e, {| store := s1; calls := (calls w ++ [CallClient false])%list |}).
Proof.
  intros Hcl. unfold add_sentences_to_chromadb, bind, call. now rewrite Hcl.
Qed.

Lemma index_create_fails (sentences : list string) (name : string)
  (w : World) (cl : Client) (s1 : S) (e : PyExc) (s2 : S) :
  new_client vs false (store w) = (Returned cl, s1) ->
  get_or_create_collection vs cl name s1 = (Raised e, s2) ->
  index sentences name w
  = (Raised e,
     {| store := s2;
        calls := (calls w ++ [CallClient false; CallGetOrCreate cl name])%list |}).
Proof.
  intros Hcl Hc. unfold add_sentences_to_chromadb, bind, call.
  rewrite Hcl. cbn. rewrite Hc. cbn. now rewrite <- app_assoc.
Qed.

(** C5. For a non-empty sequence of n documents the indexer generates the
    identifiers sentence-0 .. sentence-(n-1) in input order, as many as there
    are documents and pairwise distinct, and inserts all documents with their
    identifiers in one [add] call, the only one it makes: the store is left
    as that call left it, the collection is returned when the call returns
    and its fault is the indexer's when it raises. *)
Theorem index_identifiers_and_single_batch
  (sentences : list string) (name : string)
  (w : World) (cl : Client) (s1 : S) (c : Collection) (s2 : S) :
  sentences <> [] ->
  new_client vs false (store w) = (Returned cl, s1) ->
  get_or_create_collection vs cl name s1 = (Returned c, s2) ->
  let ids := sentence_ids sentences in
  (forall i, (i < List.length sentences)%nat ->
             nth_error ids i = Some ("sentence-" ++ str_int (Z.of_nat i)))
  /\ List.length ids = List.length sentences
  /\ NoDup ids
  /\ calls (snd (index sentences name w))
     = (calls w ++ [CallClient false; CallGetOrCreate cl name;
                    CallAdd c sentences ids])%list
  /\ store (snd (index sentences name w))
     = snd (collection_add vs c sentences ids s2)
  /\ (forall s3, collection_add vs c sentences ids s2 = (Returned tt, s3) ->
                 fst (index sentences name w) = Returned c)
  /\ (forall e s3, collection_add vs c sentences ids s2 = (Raised e, s3) ->
                   fst (index sentences name w) = Raised e).
Proof.
  intros _ Hcl Hc ids.
  split; [intros i Hi; now apply nth_error_sentence_ids|].
  split; [apply length_sentence_ids|].
  split; [apply NoDup_sentence_ids|].
  rewrite (index_after_create _ _ _ _ _ _ _ Hcl Hc). cbn zeta. fold ids.
  destruct (collection_add vs c sentences ids s2) as [[[]|e] s3]; cbn.
  - split; [reflexivity|]. split; [reflexivity|]. split; [reflexivity|].
    intros e s3' H. discriminate H.
  - split; [reflexivity|]. split; [reflexivity|].
    split; [intros s3' H; discriminate H|].
    intros e' s3' H. now injection H as -> _.
Qed.

(** C8, as amended.  With an empty document sequence the indexer performs
    the batch insertion with empty document and identifier lists; it returns
    the collection when the store accepts that batch, and the store's fault
    reaches the caller when the store rejects it. *)
Theorem index_empty_delegates_to_store
  (name : string) (w : World) (cl : Client) (s1 : S) (c : Collection) (s2 : S) :
  new_client vs false (store w) = (Returned cl, s1) ->
  get_or_create_collection vs cl name s1 = (Returned c, s2) ->
  calls (snd (index [] name w))
  = (calls w ++ [CallClient false; CallGetOrCreate cl name; CallAdd c [] []])%list
  /\ (forall s3, collection_add vs c [] [] s2 = (Returned tt, s3) ->
                 fst (index [] name w) = Returned c
                 /\ store (snd (index [] name w)) = s3)
  /\ (forall e s3, collection_add vs c [] [] s2 = (Raised e, s3) ->
                   fst (index [] name w) = Raised e).
Proof.
  intros Hcl Hc. rewrite (index_after_create _ _ _ _ _ _ _ Hcl Hc). cbn.
  split; [|split].
  - now destruct (collection_add vs c [] [] s2) as [[[]|e] s3].
  - intros s3 H. split; now rewrite H.
  - intros e s3 H. now rewrite H.
Qed.

(** C9. When the store's client construction, collection creation or batch
    insertion raises, the indexer raises that very fault: it is neither
    caught nor turned into a returned value, and the failed call is not
    tried again (it is the last call in the log, made once). *)
Theorem index_store_fault_propagates
  (sentences : list string) (name : string) (w : World)
  (e : PyExc) (made : list (StoreCall Client Collection)) :
  store_fault vs sentences name w e made ->
  fst (index sentences name w) = Raised e
  /\ calls (snd (index sentences name w)) = (calls w ++ made)%list.
Proof.
  intros [e' s1 Hcl | cl s1 e' s2 Hcl Hc | cl s1 c s2 e' s3 Hcl Hc Ha].
  - now rewrite (index_client_fails _ _ _ _ _ Hcl).
  - now rewrite (index_create_fails _ _ _ _ _ _ _ Hcl Hc).
  - rewrite (index_after_create _ _ _ _ _ _ _ Hcl Hc). cbn. now rewrite Ha.
Qed.

End IndexerFacts.

(** The demo's documents, and the stub store after the collection was
    created in it. *)
Lemma index_identifiers_and_single_batch_witness :
  let sentences := ["a red cat"; "a blue dog"; "a green bird"] in
  let ids := sentence_ids sentences in
  (forall i, (i < List.length sentences)%nat ->
             nth_error ids i = Some ("sentence-" ++ str_int (Z.of_nat i)))
  /\ List.length ids = List.length sentences
  /\ NoDup ids
  /\ calls (snd (add_sentences_to_chromadb (stub_store false) sentences
                   default_collection_name fresh))
     = [CallClient false; CallGetOrCreate tt default_collection_name;
        CallAdd default_collection_name sentences ids]
  /\ store (snd (add_sentences_to_chromadb (stub_store false) sentences
                   default_collection_name fresh))
     = [(default_collection_name,
         [("sentence-0", "a red cat"); ("sentence-1", "a blue dog");
          ("sentence-2", "a green bird")])]
  /\ fst (add_sentences_to_chromadb (stub_store false) sentences
            default_collection_name fresh)
     = Returned default_collection_name.
Proof.
  intros sentences ids.
  destruct (index_identifiers_and_single_batch (stub_store false)
              sentences default_collection_name fresh tt []
              default_collection_name [(default_collection_name, [])])
    as (Hnth & Hlen & Hnd & Hcalls & Hstore & Hok & _);
    [discriminate | reflexivity | reflexivity |].
  split; [exact Hnth|]. split; [exact Hlen|]. split; [exact Hnd|].
  split; [exact Hcalls|]. split; [exact Hstore|].
  exact (Hok _ eq_refl).
Defined.

Example index_demo_on_stub_store :
  add_sentences_to_chromadb (stub_store true)
    ["a red cat"; "a blue dog"; "a green bird"] default_collection_name fresh
  = (Returned default_collection_name,
     {| store := [(default_collection_name,
                   [("sentence-0", "a red cat"); ("sentence-1", "a blue dog");
                    ("sentence-2", "a green bird")])];
        calls := [CallClient false;
                  CallGetOrCreate tt default_collection_name;
                  CallAdd default_collection_name
                    ["a red cat"; "a blue dog"; "a green bird"]
                    ["sentence-0"; "sentence-1"; "sentence-2"]] |}).
Proof. reflexivity. Qed.

(** C8 as stated fails on a store that validates the batch: the empty list
    of identifiers is refused and the indexer raises. *)
Lemma index_empty_raises_on_strict_store :
  fst (add_sentences_to_chromadb (stub_store true) []
         default_collection_name fresh)
  = Raised (ValueError "Expected IDs to be a non-empty list, got 0 IDs").
Proof. reflexivity. Qed.

Lemma index_empty_delegates_to_store_witness :
  calls (snd (add_sentences_to_chromadb (stub_store false) []
                default_collection_name fresh))
  = [CallClient false; CallGetOrCreate tt default_collection_name;
     CallAdd default_collection_name [] []]
  /\ fst (add_sentences_to_chromadb (stub_store false) []
            default_collection_name fresh)
     = Returned default_collection_name
  /\ store (snd (add_sentences_to_chromadb (stub_store false) []
                   default_collection_name fresh))
     = [(default_collection_name, [])].
Proof.
  destruct (index_empty_delegates_to_store (stub_store false)
              default_collection_name fresh tt []
              default_collection_name [(default_collection_name, [])]
              eq_refl eq_refl) as (Hcalls & Hok & _).
  split; [exact Hcalls|].
  exact (Hok [(default_collection_name, [])] eq_refl).
Defined.

Lemma index_store_fault_propagates_witness :
  fst (add_sentences_to_chromadb (stub_store true) []
         default_collection_name fresh)
  = Raised (ValueError "Expected IDs to be a non-empty list, got 0 IDs")
  /\ calls (snd (add_sentences_to_chromadb (stub_store true) []
                   default_collection_name fresh))
     = [CallClient false; CallGetOrCreate tt default_collection_name;
        CallAdd default_collection_name [] []].
Proof.
  apply (index_store_fault_propagates (stub_store true) []
           default_collection_name fresh).
  apply (fault_add _ _ _ (stub_store true) [] default_collection_name fresh
           tt [] default_collection_name [(default_collection_name, [])]
           (ValueError "Expected IDs to be a non-empty list, got 0 IDs")
           [(default_collection_name, [])]);
    reflexivity.
Defined.

(** ** The answerer: preflight, invocation and classification *)

Section AnswererFacts.

Variable host : Host.

Abbreviation ollama_run := ["ollama"; "run"; "llama3.1"].

Lemma missing_message_not_empty : String.eqb missing_message "" = false.
Proof. reflexivity. Qed.

(** The run of the answerer when the preflight finds nothing. *)
Lemma call_llama_missing (question : string) (docs : list string)
  (log : Spawned) :
  which host "ollama" = None ->
  call_llama_with_context host question docs log
  = (Returned missing_message, log).
Proof.
  intros Hw. unfold call_llama_with_context, _ensure_ollama_available.
  rewrite Hw, missing_message_not_empty. reflexivity.
Qed.

(** The run of the answerer when the executable is there: one
    [subprocess.run], whose outcome is classified. *)
Lemma call_llama_available (question : string) (docs : list string)
  (log : Spawned) (path : string) :
  which host "ollama" = Some path ->
  call_llama_with_context host question docs log
  = let log' := (log ++ [(ollama_run, prompt question docs)])%list in
    match launch host ollama_run (prompt question docs) with
    | Raised e =>
        if exc_is_Exception e
        then (Returned ("Failed to invoke Ollama: " ++ exc_str e), log')
        else (Raised e, log')
    | Returned proc =>
        if (returncode proc =? 0)%Z
        then (Returned (strip (stdout proc)), log')
        else (Returned ("Ollama returned non-zero exit code "
                        ++ str_int (returncode proc) ++ ": "
                        ++ strip (stderr proc)), log')
    end.
Proof.
  intros Hw.
  unfold call_llama_with_context, _ensure_ollama_available,
    try_except_Exception, subprocess_run, ret.
  rewrite Hw. cbn zeta.
  destruct (launch host ollama_run (prompt question docs)) as [proc|e].
  - now destruct (returncode proc =? 0)%Z.
  - reflexivity.
Qed.

(** C1. For every question and every list of documents the answerer returns
    a string and raises nothing: a missing executable, a launch that fails
    with an [Exception] and a non-zero exit are each turned into a returned
    diagnostic string. *)
Theorem call_llama_returns_a_string (question : string) (docs : list string)
  (log : Spawned) :
  (forall e, launch host ollama_run (prompt question docs) = Raised e ->
             exc_is_Exception e = true) ->
  exists s : string,
    fst (call_llama_with_context host question docs log) = Returned s
    /\ (which host "ollama" = None -> s = missing_message)
    /\ (forall path e,
          which host "ollama" = Some path ->
          launch host ollama_run (prompt question docs) = Raised e ->
          s = "Failed to invoke Ollama: " ++ exc_str e)
    /\ (forall path proc,
          which host "ollama" = Some path ->
          launch host ollama_run (prompt question docs) = Returned proc ->
          returncode proc <> 0%Z ->
          s = "Ollama returned non-zero exit code "
              ++ str_int (returncode proc) ++ ": " ++ strip (stderr proc)).
Proof.
  intros Hexc. destruct (which host "ollama") as [path|] eqn:Hw.
  - rewrite (call_llama_available _ _ _ _ Hw). cbn zeta.
    destruct (launch host ollama_run (prompt question docs)) as [proc|e] eqn:Hl.
    + destruct (Z.eqb_spec (returncode proc) 0) as [Hz|Hz].
      * eexists. split; [reflexivity|]. split; [discriminate|].
        split; [discriminate|]. intros _ proc' _ [= <-] Hnz. contradiction.
      * eexists. split; [reflexivity|]. split; [discriminate|].
        split; [discriminate|]. now intros _ proc' _ [= <-] _.
    + rewrite (Hexc e eq_refl). eexists. split; [reflexivity|].
      split; [discriminate|]. split; [|discriminate].
      now intros _ e' _ [= <-].
  - rewrite (call_llama_missing _ _ _ Hw). eexists. split; [reflexivity|].
    split; [reflexivity|]. split; discriminate.
Qed.

(** C2. When [ollama] is not found, the answerer returns the fixed message,
    which names the missing dependency and where to install it from, for
    every question and document list, and starts no process: the log of
    [subprocess.run] calls is left as it was. *)
Theorem call_llama_missing_dependency (question : string)
  (docs : list string) (log : Spawned) :
  which host "ollama" = None ->
  call_llama_with_context host question docs log
  = (Returned missing_message, log)
  /\ contains "Ollama CLI not found" missing_message = true
  /\ contains "https://ollama.com" missing_message = true.
Proof.
  intros Hw. split; [now apply call_llama_missing|]. split; reflexivity.
Qed.

(** C3. When the process exits with a non-zero status, the answerer returns
    a diagnostic string that contains the exit code and the stripped
    standard error; for exit code 1 and standard error boom it contains 1
    and boom. *)
Theorem call_llama_nonzero_exit (question : string) (docs : list string)
  (log : Spawned) (path : string) (proc : CompletedProcess) :
  which host "ollama" = Some path ->
  launch host ollama_run (prompt question docs) = Returned proc ->
  returncode proc <> 0%Z ->
  exists s : string,
    fst (call_llama_with_context host question docs log) = Returned s
    /\ s = "Ollama returned non-zero exit code "
           ++ str_int (returncode proc) ++ ": " ++ strip (stderr proc)
    /\ contains (str_int (returncode proc)) s = true
    /\ contains (strip (stderr proc)) s = true
    /\ (returncode proc = 1%Z -> stderr proc = "boom" ->
        contains "1" s = true /\ contains "boom" s = true).
Proof.
  intros Hw Hl Hnz. rewrite (call_llama_available _ _ _ _ Hw), Hl. cbn zeta.
  destruct (Z.eqb_spec (returncode proc) 0) as [Hz|_]; [contradiction|].
  eexists. split; [reflexivity|]. split; [reflexivity|].
  assert (Hcode : forall a b c, contains b (a ++ b ++ c) = true)
    by apply contains_app.
  assert (Herr : contains (strip (stderr proc))
                   ("Ollama returned non-zero exit code "
                    ++ str_int (returncode proc) ++ ": "
                    ++ strip (stderr proc)) = true).
  { rewrite <- (sapp_assoc (str_int (returncode proc))), <- sapp_assoc.
    apply contains_suffix. }
  split; [apply Hcode|]. split; [exact Herr|].
  intros H1 Hboom. split.
  - rewrite H1. apply (Hcode _ "1").
  - rewrite Hboom in Herr |- *. exact Herr.
Qed.

(** C4. When the process exits with status zero, the answerer returns the
    standard output with the whitespace at both ends removed, and nothing
    else changed: the output is that string between two runs of
    whitespace. *)
Theorem call_llama_zero_exit (question : string) (docs : list string)
  (log : Spawned) (path : string) (proc : CompletedProcess) :
  which host "ollama" = Some path ->
  launch host ollama_run (prompt question docs) = Returned proc ->
  returncode proc = 0%Z ->
  fst (call_llama_with_context host question docs log)
  = Returned (strip (stdout proc))
  /\ exists l r : string,
       stdout proc = l ++ strip (stdout proc) ++ r
       /\ all_space l = true /\ all_space r = true
       /\ starts_with_space (strip (stdout proc)) = false
       /\ ends_with_space (strip (stdout proc)) = false.
Proof.
  intros Hw Hl Hz. rewrite (call_llama_available _ _ _ _ Hw), Hl, Hz.
  split; [reflexivity | apply strip_spec].
Qed.

End AnswererFacts.

(** Runs on stub hosts: the end-to-end scenario's question and documents. *)

Lemma call_llama_returns_a_string_witness :
  fst (call_llama_with_context
         (stub_host (Some "/usr/local/bin/ollama")
                    (Raised (OSError "[Errno 8] Exec format error: 'ollama'")))
         "What color is the cat?" ["a red cat"; "a blue dog"] [])
  = Returned "Failed to invoke Ollama: [Errno 8] Exec format error: 'ollama'".
Proof.
  set (e := OSError "[Errno 8] Exec format error: 'ollama'").
  set (h := stub_host (Some "/usr/local/bin/ollama") (Raised e)).
  destruct (call_llama_returns_a_string h
              "What color is the cat?" ["a red cat"; "a blue dog"] [])
    as (s & Hs & _ & Hfail & _).
  - intros e' H. unfold h, stub_host in H. cbn [launch] in H.
    injection H as <-. reflexivity.
  - rewrite Hs. f_equal.
    exact (Hfail "/usr/local/bin/ollama" e eq_refl eq_refl).
Defined.

Lemma call_llama_missing_dependency_witness :
  call_llama_with_context
    (stub_host None (Returned {| returncode := 0; stdout := "unused";
                                 stderr := "" |}))
    "What color is the cat?" ["a red cat"; "a blue dog"] []
  = (Returned missing_message, []).
Proof.
  exact (proj1 (call_llama_missing_dependency
                  (stub_host None (Returned {| returncode := 0;
                                               stdout := "unused";
                                               stderr := "" |}))
                  "What color is the cat?" ["a red cat"; "a blue dog"] []
                  eq_refl)).
Defined.

Lemma call_llama_nonzero_exit_witness :
  exists s : string,
    fst (call_llama_with_context
           (stub_host (Some "/usr/local/bin/ollama")
                      (Returned {| returncode := 1; stdout := "";
                                   stderr := "boom" |}))
           "What color is the cat?" ["a red cat"; "a blue dog"] [])
    = Returned s
    /\ contains "1" s = true /\ contains "boom" s = true.
Proof.
  set (proc := {| returncode := 1; stdout := ""; stderr := "boom" |}).
  destruct (call_llama_nonzero_exit
              (stub_host (Some "/usr/local/bin/ollama") (Returned proc))
              "What color is the cat?" ["a red cat"; "a blue dog"] []
              "/usr/local/bin/ollama" proc eq_refl eq_refl)
    as (s & Hs & _ & _ & _ & Hboom).
  - discriminate.
  - exists s. split; [exact Hs | exact (Hboom eq_refl eq_refl)].
Defined.

Lemma call_llama_zero_exit_witness :
  fst (call_llama_with_context
         (stub_host (Some "/usr/local/bin/ollama")
                    (Returned {| returncode := 0;
                                 stdout := "  The cat is red." ++ NL;
                                 stderr := "" |}))
         "What color is the cat?" ["a red cat"; "a blue dog"] [])
  = Returned "The cat is red.".
Proof.
  set (proc := {| returncode := 0; stdout := "  The cat is red." ++ NL;
                  stderr := "" |}).
  exact (proj1 (call_llama_zero_exit
                  (stub_host (Some "/usr/local/bin/ollama") (Returned proc))
                  "What color is the cat?" ["a red cat"; "a blue dog"] []
                  "/usr/local/bin/ollama" proc eq_refl eq_refl eq_refl)).
Defined.

(** ** Lines of a text *)

Lemma split_lines_not_nil (s : string) : split_lines s <> [].
Proof.
  induction s as [|c s IH]; simpl; [discriminate|].
  destruct (Ascii.eqb c lf); [discriminate|].
  now destruct (split_lines s).
Qed.

Lemma prepend_not_nil (p : string) (ls : list string) : prepend p ls <> [].
Proof. now destruct ls. Qed.

Lemma prepend_app (p : string) (xs ys : list string) :
  xs <> [] -> prepend p (xs ++ ys)%list = (prepend p xs ++ ys)%list.
Proof. now destruct xs. Qed.

Lemma prepend_prepend (p p' : string) (ls : list string) :
  ls <> [] -> prepend p (prepend p' ls) = prepend (p ++ p') ls.
Proof. destruct ls; [easy|]. intros _. simpl. now rewrite sapp_assoc. Qed.

Lemma split_lines_eq (c : ascii) (s : string) :
  split_lines (String c s)
  = if Ascii.eqb c lf then "" :: split_lines s
    else match split_lines s with
         | l :: ls => String c l :: ls
         | [] => [String c ""]
         end.
Proof. reflexivity. Qed.

Lemma split_lines_cons (c : ascii) (s : string) :
  Ascii.eqb c lf = false ->
  split_lines (String c s) = prepend (String c "") (split_lines s).
Proof.
  intros Hc. rewrite split_lines_eq, Hc.
  destruct (split_lines s) eqn:E; [now apply split_lines_not_nil in E|].
  reflexivity.
Qed.

Lemma split_lines_app_nl (a b : string) :
  split_lines (a ++ NL ++ b) = (split_lines a ++ split_lines b)%list.
Proof.
  induction a as [|c a IH]; [reflexivity|].
  change (String c a ++ NL ++ b) with (String c (a ++ NL ++ b)).
  rewrite !split_lines_eq, IH. destruct (Ascii.eqb c lf); [reflexivity|].
  destruct (split_lines a) eqn:E; [now apply split_lines_not_nil in E|].
  reflexivity.
Qed.

Lemma split_lines_no_lf_app (p s : string) :
  has_lf p = false -> split_lines (p ++ s) = prepend p (split_lines s).
Proof.
  induction p as [|c p IH]; simpl has_lf; intros Hp.
  - change ("" ++ s) with s.
    destruct (split_lines s) eqn:E; [now apply split_lines_not_nil in E|].
    reflexivity.
  - apply orb_false_iff in Hp as (Hc & Hp).
    change (String c p ++ s) with (String c (p ++ s)).
    rewrite (split_lines_cons _ _ Hc), (IH Hp).
    apply prepend_prepend, split_lines_not_nil.
Qed.

Lemma split_lines_no_lf (s : string) : has_lf s = false -> split_lines s = [s].
Proof.
  intros Hs. rewrite <- (sapp_nil_r s) at 1.
  rewrite (split_lines_no_lf_app _ _ Hs). simpl. now rewrite sapp_nil_r.
Qed.

Lemma has_lf_app (a b : string) : has_lf (a ++ b) = has_lf a || has_lf b.
Proof.
  induction a as [|c a IH]; simpl; [reflexivity|].
  now rewrite IH, orb_assoc.
Qed.

Lemma join_cons (sep x : string) (ls : list string) :
  ls <> [] -> join sep (x :: ls) = x ++ sep ++ join sep ls.
Proof. now destruct ls. Qed.

Lemma join_app (sep : string) (xs ys : list string) :
  xs <> [] -> ys <> [] ->
  join sep (xs ++ ys)%list = join sep xs ++ sep ++ join sep ys.
Proof.
  intros Hx Hy. induction xs as [|x xs IH]; [easy|].
  destruct xs as [|x' xs].
  - simpl app. now rewrite join_cons.
  - change ((x :: x' :: xs) ++ ys)%list with (x :: ((x' :: xs) ++ ys))%list.
    rewrite join_cons by discriminate. rewrite IH by discriminate.
    rewrite (join_cons sep x (x' :: xs)) by discriminate.
    now rewrite !sapp_assoc.
Qed.

Lemma join_prepend (sep p : string) (ls : list string) :
  ls <> [] -> join sep (prepend p ls) = p ++ join sep ls.
Proof.
  destruct ls as [|l ls]; [easy|]. intros _. simpl prepend.
  destruct ls as [|l' ls]; [reflexivity|].
  rewrite !join_cons by discriminate. now rewrite sapp_assoc.
Qed.

Lemma join_split_lines (s : string) : join NL (split_lines s) = s.
Proof.
  induction s as [|c s IH]; [reflexivity|].
  destruct (Ascii.eqb c lf) eqn:Hc.
  - rewrite split_lines_eq, Hc.
    rewrite join_cons by apply split_lines_not_nil. rewrite IH.
    apply Ascii.eqb_eq in Hc. now subst c.
  - rewrite (split_lines_cons _ _ Hc).
    rewrite join_prepend by apply split_lines_not_nil. now rewrite IH.
Qed.

Lemma map_not_nil {A B : Type} (f : A -> B) (l : list A) :
  l <> [] -> map f l <> [].
Proof. now destruct l. Qed.

Lemma map_lines_app_nl (f : string -> string) (a b : string) :
  map_lines f (a ++ NL ++ b) = map_lines f a ++ NL ++ map_lines f b.
Proof.
  unfold map_lines. rewrite split_lines_app_nl, map_app.
  apply join_app; apply map_not_nil, split_lines_not_nil.
Qed.

Lemma map_lines_no_lf (f : string -> string) (s : string) :
  has_lf s = false -> map_lines f s = f s.
Proof. intros Hs. unfold map_lines. now rewrite (split_lines_no_lf _ Hs). Qed.

Lemma all_blank_app (a b : string) :
  all_blank (a ++ b) = all_blank a && all_blank b.
Proof.
  induction a as [|c a IH]; simpl; [reflexivity|].
  now rewrite IH, andb_assoc.
Qed.

Lemma map_lines_prefixed (p s : string) :
  has_lf p = false -> all_blank p = false ->
  map_lines whitespace_only_sub (p ++ s) = p ++ tail_blanks_emptied s.
Proof.
  intros Hlf Hb. unfold map_lines, tail_blanks_emptied.
  rewrite (split_lines_no_lf_app _ _ Hlf).
  destruct (split_lines s) as [|l ls] eqn:E;
    [now apply split_lines_not_nil in E|].
  simpl prepend. simpl map. unfold whitespace_only_sub at 1.
  rewrite all_blank_app, Hb. cbn [andb].
  change ((p ++ l) :: map whitespace_only_sub ls)
    with (prepend p (l :: map whitespace_only_sub ls)).
  now rewrite join_prepend.
Qed.

Lemma tail_blanks_emptied_no_lf (s : string) :
  has_lf s = false -> tail_blanks_emptied s = s.
Proof.
  intros Hs. unfold tail_blanks_emptied. now rewrite (split_lines_no_lf _ Hs).
Qed.

Lemma tail_blanks_emptied_app_nl (a b : string) :
  tail_blanks_emptied (a ++ NL ++ b)
  = tail_blanks_emptied a ++ NL ++ map_lines whitespace_only_sub b.
Proof.
  unfold tail_blanks_emptied, map_lines. rewrite split_lines_app_nl.
  destruct (split_lines a) as [|l ls] eqn:E;
    [now apply split_lines_not_nil in E|].
  cbn [List.app]. rewrite map_app.
  change (l :: (map whitespace_only_sub ls
                ++ map whitespace_only_sub (split_lines b)))%list
    with ((l :: map whitespace_only_sub ls)
          ++ map whitespace_only_sub (split_lines b))%list.
  apply join_app; [discriminate|]. apply map_not_nil, split_lines_not_nil.
Qed.

(** ** The margin [dedent] finds *)

Lemma prefix_nil (s : string) : String.prefix "" s = true.
Proof. now destruct s. Qed.

Lemma update_margin_empty (m : option string) : update_margin m "" = Some "".
Proof.
  destruct m as [[|c m]|]; simpl; try reflexivity.
Qed.

Lemma fold_margin_stays_empty (inds : list string) :
  fold_left update_margin inds (Some "") = Some "".
Proof.
  induction inds as [|i inds IH]; [reflexivity|].
  simpl. now rewrite prefix_nil.
Qed.

Lemma fold_margin_with_empty (inds : list string) (m : option string) :
  In "" inds -> fold_left update_margin inds m = Some "".
Proof.
  revert m. induction inds as [|i inds IH]; intros m; [easy|].
  intros [->|Hin]; cbn [fold_left].
  - rewrite update_margin_empty. apply fold_margin_stays_empty.
  - now apply IH.
Qed.

Lemma indents_in (l : string) (ls : list string) :
  In l ls -> all_blank l = false -> In (leading_blanks l) (indents ls).
Proof.
  intros Hin Hb. induction ls as [|x ls IH]; [easy|].
  cbn [indents]. destruct Hin as [->|Hin].
  - rewrite Hb. now left.
  - destruct (all_blank x); [now apply IH | right; now apply IH].
Qed.

Lemma whitespace_only_sub_keeps (l : string) :
  all_blank l = false -> whitespace_only_sub l = l.
Proof. intros Hb. unfold whitespace_only_sub. now rewrite Hb. Qed.

(** A line that starts at column zero leaves no margin to remove. *)
Lemma find_margin_column_zero (l : string) (ls : list string) :
  In l ls -> all_blank l = false -> leading_blanks l = "" ->
  find_margin (map whitespace_only_sub ls) = Some "".
Proof.
  intros Hin Hb Hl. unfold find_margin. apply fold_margin_with_empty.
  rewrite <- Hl. apply indents_in; [|exact Hb].
  rewrite <- (whitespace_only_sub_keeps _ Hb). now apply in_map.
Qed.

Lemma dedent_no_margin (text : string) :
  find_margin (map whitespace_only_sub (split_lines text)) = Some "" ->
  dedent text = map_lines whitespace_only_sub text.
Proof. intros Hm. unfold dedent. now rewrite Hm. Qed.

Lemma dedent_margin (text : string) (c : ascii) (m : string) :
  find_margin (map whitespace_only_sub (split_lines text))
  = Some (String c m) ->
  dedent text
  = map_lines (fun l => remove_margin (String c m) (whitespace_only_sub l))
      text.
Proof.
  intros Hm. unfold dedent, map_lines. rewrite Hm. now rewrite map_map.
Qed.

(** A bullet at column zero behind a line feed: nothing is dedented. *)
Lemma dedent_bullet_at_column_zero (x z : string) :
  dedent (x ++ NL ++ "- " ++ z)
  = map_lines whitespace_only_sub (x ++ NL ++ "- " ++ z).
Proof.
  apply dedent_no_margin. rewrite split_lines_app_nl.
  rewrite (split_lines_no_lf_app "- " z eq_refl).
  destruct (split_lines z) as [|l ls] eqn:E;
    [now apply split_lines_not_nil in E|].
  apply (find_margin_column_zero ("- " ++ l)); [|reflexivity|reflexivity].
  apply in_or_app. right. now left.
Qed.

(** ** [strip] of a framed text *)

Lemma lstrip_app_space (l s : string) :
  all_space l = true -> lstrip (l ++ s) = lstrip s.
Proof.
  induction l as [|c l IH]; simpl; [reflexivity|].
  intros H. apply andb_true_iff in H as (Hc & Hl). now rewrite Hc, IH.
Qed.

Lemma lstrip_no_space (s : string) :
  starts_with_space s = false -> lstrip s = s.
Proof. destruct s as [|c s]; simpl; [reflexivity|]. now intros ->. Qed.

Lemma rstrip_all_space (r : string) : all_space r = true -> rstrip r = "".
Proof.
  induction r as [|c r IH]; simpl; [reflexivity|].
  intros H. apply andb_true_iff in H as (Hc & Hr). now rewrite IH, Hc.
Qed.

Lemma rstrip_app_space (s r : string) :
  all_space r = true -> rstrip (s ++ r) = rstrip s.
Proof.
  intros Hr. induction s as [|c s IH]; simpl.
  - now apply rstrip_all_space.
  - now rewrite IH.
Qed.

Lemma rstrip_no_space (s : string) :
  ends_with_space s = false -> rstrip s = s.
Proof.
  induction s as [|c s IH]; [reflexivity|].
  destruct s as [|c' s].
  - simpl. now intros ->.
  - intros H. change (ends_with_space (String c' s) = false) in H.
    change (rstrip (String c (String c' s)))
      with (match rstrip (String c' s) with
            | "" => if isspace c then "" else String c ""
            | r => String c r
            end).
    now rewrite (IH H).
Qed.

Lemma strip_framed (l core r : string) :
  all_space l = true -> all_space r = true ->
  starts_with_space core = false -> ends_with_space core = false ->
  strip (l ++ core ++ r) = core.
Proof.
  intros Hl Hr Hs He. unfold strip.
  rewrite (lstrip_app_space _ _ Hl).
  destruct core as [|c core].
  - change ("" ++ r) with r. rewrite <- (sapp_nil_r r) at 1.
    now rewrite (lstrip_app_space _ _ Hr).
  - rewrite lstrip_no_space by exact Hs.
    rewrite (rstrip_app_space _ _ Hr). now apply rstrip_no_space.
Qed.

Lemma ends_with_space_app (a b : string) :
  b <> "" -> ends_with_space (a ++ b) = ends_with_space b.
Proof.
  intros Hb. induction a as [|c a IH]; [reflexivity|].
  change (String c a ++ b) with (String c (a ++ b)).
  destruct (a ++ b) eqn:E.
  - destruct a; [simpl in E; contradiction | discriminate].
  - exact IH.
Qed.

(** ** The prompt *)

Abbreviation line1 :=
  "You are a helpful assistant. Use only the provided context to answer the user's".
Abbreviation line2 :=
  "question. If the answer is not in the context, say you don't know.".
Abbreviation bullet := (fun d : string => "- " ++ d).

(** The template, line by line. *)
Lemma prompt_template_pieces (question block : string) :
  prompt_template question block
  = "" ++ NL ++ (indent8 ++ line1) ++ NL ++ (indent8 ++ line2) ++ NL
    ++ "" ++ NL ++ (indent8 ++ "Context:") ++ NL ++ (indent8 ++ block) ++ NL
    ++ "" ++ NL ++ ((indent8 ++ "Question: ") ++ question) ++ NL
    ++ (indent8 ++ "Answer:") ++ NL ++ indent8.
Proof. reflexivity. Qed.

Lemma map_lines_pieces (f : string -> string)
  (x0 x1 x2 x3 x4 x5 x6 x7 x8 x9 : string) :
  map_lines f (x0 ++ NL ++ x1 ++ NL ++ x2 ++ NL ++ x3 ++ NL ++ x4 ++ NL
               ++ x5 ++ NL ++ x6 ++ NL ++ x7 ++ NL ++ x8 ++ NL ++ x9)
  = map_lines f x0 ++ NL ++ map_lines f x1 ++ NL ++ map_lines f x2 ++ NL
    ++ map_lines f x3 ++ NL ++ map_lines f x4 ++ NL ++ map_lines f x5 ++ NL
    ++ map_lines f x6 ++ NL ++ map_lines f x7 ++ NL ++ map_lines f x8 ++ NL
    ++ map_lines f x9.
Proof. now rewrite !map_lines_app_nl. Qed.

Lemma split_lines_pieces (x0 x1 x2 x3 x4 x5 x6 x7 x8 x9 : string) :
  split_lines (x0 ++ NL ++ x1 ++ NL ++ x2 ++ NL ++ x3 ++ NL ++ x4 ++ NL
               ++ x5 ++ NL ++ x6 ++ NL ++ x7 ++ NL ++ x8 ++ NL ++ x9)
  = (split_lines x0 ++ split_lines x1 ++ split_lines x2 ++ split_lines x3
     ++ split_lines x4 ++ split_lines x5 ++ split_lines x6 ++ split_lines x7
     ++ split_lines x8 ++ split_lines x9)%list.
Proof. now rewrite !split_lines_app_nl. Qed.

Lemma context_block_cons (d d' : string) (ds : list string) :
  context_block (d :: d' :: ds)
  = ("- " ++ d) ++ NL ++ ("" ++ NL ++ context_block (d' :: ds)).
Proof.
  unfold context_block. cbn [map].
  rewrite (join_cons _ ("- " ++ d) (("- " ++ d') :: map bullet ds))
    by discriminate.
  now rewrite !sapp_assoc.
Qed.

Lemma context_block_bullet (d : string) (ds : list string) :
  exists z, context_block (d :: ds) = "- " ++ z.
Proof.
  destruct ds as [|d' ds].
  - now exists d.
  - rewrite context_block_cons. eexists. rewrite sapp_assoc. reflexivity.
Qed.

(** Emptying the blank lines of the context block empties those of each
    document, and leaves every bullet where it is. *)
Lemma context_block_blanks_emptied (d : string) (ds : list string) :
  map_lines whitespace_only_sub (context_block (d :: ds))
  = join (NL ++ NL) (map (fun d => "- " ++ tail_blanks_emptied d) (d :: ds)).
Proof.
  revert d. induction ds as [|d' ds IH]; intros d.
  - apply (map_lines_prefixed "- " d); reflexivity.
  - rewrite context_block_cons, !map_lines_app_nl, IH.
    rewrite (map_lines_prefixed "- " d) by reflexivity.
    change (map_lines whitespace_only_sub "") with "".
    set (rest := map (fun d => "- " ++ tail_blanks_emptied d) (d' :: ds)).
    change (map (fun d => "- " ++ tail_blanks_emptied d) (d :: d' :: ds))
      with (("- " ++ tail_blanks_emptied d) :: rest).
    rewrite (join_cons (NL ++ NL) _ rest) by discriminate.
    now rewrite !sapp_assoc.
Qed.

Lemma indented_block_blanks_emptied (d : string) (ds : list string) :
  map_lines whitespace_only_sub (indent8 ++ context_block (d :: ds))
  = indent8
    ++ join (NL ++ NL) (map (fun d => "- " ++ tail_blanks_emptied d) (d :: ds)).
Proof.
  rewrite <- context_block_blanks_emptied.
  destruct (context_block_bullet d ds) as (z & ->).
  rewrite (map_lines_prefixed "- " z) by reflexivity.
  rewrite <- sapp_assoc. rewrite map_lines_prefixed by reflexivity.
  now rewrite sapp_assoc.
Qed.

Lemma prompt_layout_starts (indent : string) (bullets : list string)
  (question : string) :
  starts_with_space (prompt_layout indent bullets question) = false.
Proof. reflexivity. Qed.

Lemma prompt_layout_ends (indent : string) (bullets : list string)
  (question : string) :
  ends_with_space (prompt_layout indent bullets question) = false.
Proof.
  unfold prompt_layout. rewrite <- !sapp_assoc.
  now rewrite ends_with_space_app by discriminate.
Qed.

(** With two documents or more the second bullet stands at column zero:
    nothing is dedented, and [strip] takes the indentation of the first line
    only. *)
Lemma prompt_two_or_more (question d1 d2 : string) (ds : list string) :
  prompt question (d1 :: d2 :: ds)
  = prompt_layout indent8
      (map (fun d => "- " ++ tail_blanks_emptied d) (d1 :: d2 :: ds))
      (tail_blanks_emptied question).
Proof.
  unfold prompt.
  assert (Hd : dedent (prompt_template question (context_block (d1 :: d2 :: ds)))
               = map_lines whitespace_only_sub
                   (prompt_template question (context_block (d1 :: d2 :: ds)))).
  { destruct (context_block_bullet d2 ds) as (z & Hz).
    rewrite context_block_cons, Hz.
    set (x := NL ++ (indent8 ++ line1) ++ NL ++ (indent8 ++ line2) ++ NL
              ++ NL ++ (indent8 ++ "Context:") ++ NL ++ indent8 ++ "- " ++ d1
              ++ NL).
    set (z' := z ++ NL ++ NL ++ (indent8 ++ "Question: ") ++ question ++ NL
               ++ (indent8 ++ "Answer:") ++ NL ++ indent8).
    replace (prompt_template question
               (("- " ++ d1) ++ NL ++ "" ++ NL ++ "- " ++ z))
      with (x ++ NL ++ "- " ++ z').
    - apply dedent_bullet_at_column_zero.
    - unfold x, z', prompt_template. rewrite !sapp_assoc. reflexivity. }
  rewrite Hd, prompt_template_pieces, map_lines_pieces.
  rewrite indented_block_blanks_emptied.
  rewrite (map_lines_prefixed (indent8 ++ "Question: ") question)
    by reflexivity.
  change (map_lines whitespace_only_sub "") with "".
  change (map_lines whitespace_only_sub (indent8 ++ line1))
    with (indent8 ++ line1).
  change (map_lines whitespace_only_sub (indent8 ++ line2))
    with (indent8 ++ line2).
  change (map_lines whitespace_only_sub (indent8 ++ "Context:"))
    with (indent8 ++ "Context:").
  change (map_lines whitespace_only_sub (indent8 ++ "Answer:"))
    with (indent8 ++ "Answer:").
  change (map_lines whitespace_only_sub indent8) with "".
  set (bullets := map (fun d => "- " ++ tail_blanks_emptied d) (d1 :: d2 :: ds)).
  set (q := tail_blanks_emptied question).
  replace ("" ++ NL ++ (indent8 ++ line1) ++ NL ++ (indent8 ++ line2) ++ NL
           ++ "" ++ NL ++ (indent8 ++ "Context:") ++ NL
           ++ (indent8 ++ join (NL ++ NL) bullets) ++ NL ++ "" ++ NL
           ++ ((indent8 ++ "Question: ") ++ q) ++ NL
           ++ (indent8 ++ "Answer:") ++ NL ++ "")
    with ((NL ++ indent8) ++ prompt_layout indent8 bullets q ++ NL).
  - apply strip_framed; try reflexivity. apply prompt_layout_ends.
  - unfold prompt_layout, context_lines, bullets. cbn [map].
    rewrite !sapp_assoc. reflexivity.
Qed.

(** With one line per value and at most one document every line that is
    not blank starts with the template's eight spaces: they are the margin,
    and [dedent] removes them everywhere. *)
Lemma find_margin_template (question block : string) :
  has_lf question = false -> has_lf block = false ->
  block = "" \/ (exists d, block = "- " ++ d) ->
  find_margin (map whitespace_only_sub
                 (split_lines (prompt_template question block)))
  = Some indent8.
Proof.
  intros Hq Hb Hblock.
  rewrite prompt_template_pieces, split_lines_pieces.
  rewrite (split_lines_no_lf (indent8 ++ block))
    by (rewrite has_lf_app; exact Hb).
  rewrite (split_lines_no_lf ((indent8 ++ "Question: ") ++ question))
    by (rewrite has_lf_app; exact Hq).
  destruct Hblock as [->|(d & ->)]; reflexivity.
Qed.

Lemma dedent_template (question block : string) :
  has_lf question = false -> has_lf block = false ->
  block = "" \/ (exists d, block = "- " ++ d) ->
  dedent (prompt_template question block)
  = NL ++ line1 ++ NL ++ line2 ++ NL ++ NL ++ "Context:" ++ NL ++ block ++ NL
    ++ NL ++ "Question: " ++ question ++ NL ++ "Answer:" ++ NL.
Proof.
  intros Hq Hb Hblock.
  rewrite (dedent_margin _ " " "       "
             (find_margin_template _ _ Hq Hb Hblock)).
  rewrite prompt_template_pieces, map_lines_pieces.
  rewrite (map_lines_no_lf _ (indent8 ++ block))
    by (rewrite has_lf_app; exact Hb).
  rewrite (map_lines_no_lf _ ((indent8 ++ "Question: ") ++ question))
    by (rewrite has_lf_app; exact Hq).
  destruct Hblock as [->|(d & ->)]; reflexivity.
Qed.

Lemma prompt_single_line (question : string) (docs : list string) :
  (List.length docs <= 1)%nat ->
  has_lf question = false ->
  forallb (fun d => negb (has_lf d)) docs = true ->
  prompt question docs = prompt_layout "" (map bullet docs) question.
Proof.
  intros Hn Hq Hdocs. unfold prompt.
  assert (Hb : has_lf (context_block docs) = false
               /\ (context_block docs = ""
                   \/ exists d, context_block docs = "- " ++ d)
               /\ context_lines "" (map bullet docs) = context_block docs).
  { destruct docs as [|d [|d' ds]]; [| |simpl in Hn; lia].
    - repeat split. now left.
    - cbn in Hdocs. rewrite andb_true_r in Hdocs.
      apply negb_true_iff in Hdocs. repeat split; [exact Hdocs|].
      right. now exists d. }
  destruct Hb as (Hlf & Hshape & Hlines).
  rewrite (dedent_template _ _ Hq Hlf Hshape).
  replace (NL ++ line1 ++ NL ++ line2 ++ NL ++ NL ++ "Context:" ++ NL
           ++ context_block docs ++ NL ++ NL ++ "Question: " ++ question
           ++ NL ++ "Answer:" ++ NL)
    with (NL ++ prompt_layout "" (map bullet docs) question ++ NL).
  - apply strip_framed; try reflexivity. apply prompt_layout_ends.
  - unfold prompt_layout. rewrite Hlines. rewrite !sapp_assoc. reflexivity.
Qed.

Lemma bullets_single_line (docs : list string) :
  forallb (fun d => negb (has_lf d)) docs = true ->
  map (fun d => "- " ++ tail_blanks_emptied d) docs = map bullet docs.
Proof.
  induction docs as [|d docs IH]; [reflexivity|].
  cbn [forallb map]. intros H. apply andb_true_iff in H as (Hd & Hdocs).
  apply negb_true_iff in Hd.
  now rewrite (tail_blanks_emptied_no_lf _ Hd), (IH Hdocs).
Qed.

(** What the prompt is when the question and the documents hold one line
    each: the header, one bullet per document in input order with a blank
    line between them, the question as it is, the cue; the template lines
    are indented or not with the number of documents. *)
Lemma prompt_structure_single_line (question : string) (docs : list string) :
  has_lf question = false ->
  forallb (fun d => negb (has_lf d)) docs = true ->
  prompt question docs
  = prompt_layout (if (2 <=? List.length docs)%nat then indent8 else "")
      (map bullet docs) question.
Proof.
  intros Hq Hdocs. destruct (Nat.leb_spec 2 (List.length docs)) as [Hn|Hn].
  - destruct docs as [|d1 [|d2 ds]]; try (simpl in Hn; lia).
    rewrite prompt_two_or_more, (bullets_single_line _ Hdocs).
    now rewrite (tail_blanks_emptied_no_lf _ Hq).
  - apply prompt_single_line; [lia | exact Hq | exact Hdocs].
Qed.

(** With no document and a one-line question the prompt holds the question,
    every marker, and no bullet. *)
Lemma prompt_empty_context_single_line (question : string) :
  has_lf question = false ->
  prompt question []
  = line1 ++ NL ++ line2 ++ NL ++ NL ++ "Context:" ++ NL ++ NL ++ NL
    ++ "Question: " ++ question ++ NL ++ "Answer:".
Proof.
  intros Hq. now rewrite (prompt_structure_single_line _ [] Hq eq_refl).
Qed.

(** C6, at the end-to-end scenario's input.  The header is not the same
    for every input: with one document the prompt starts with the two
    instruction lines at column zero, with two documents the second
    instruction line, the markers and the first bullet keep the eight spaces
    of the source while the second bullet has none; and a question with a
    blank line in it is not in the prompt as it was given. *)
Theorem prompt_header_depends_on_documents :
  let q := "What color is the cat?" in
  prompt q ["a red cat"]
  = line1 ++ NL ++ line2 ++ NL ++ NL ++ "Context:" ++ NL
    ++ "- a red cat" ++ NL ++ NL
    ++ "Question: " ++ q ++ NL ++ "Answer:"
  /\ prompt q ["a red cat"; "a blue dog"]
     = line1 ++ NL ++ "        " ++ line2 ++ NL ++ NL
       ++ "        Context:" ++ NL
       ++ "        - a red cat" ++ NL ++ NL ++ "- a blue dog" ++ NL ++ NL
       ++ "        Question: " ++ q ++ NL ++ "        Answer:"
  /\ String.prefix (line1 ++ NL ++ line2 ++ NL) (prompt q ["a red cat"]) = true
  /\ String.prefix (line1 ++ NL ++ line2 ++ NL)
       (prompt q ["a red cat"; "a blue dog"]) = false
  /\ contains ("Which one?" ++ NL ++ " " ++ NL ++ "The red one.")
       (prompt ("Which one?" ++ NL ++ " " ++ NL ++ "The red one.")
               ["a red cat"; "a blue dog"]) = false.
Proof. vm_compute. repeat split. Qed.

(** C7, at a question with a blank line that holds a space.  With no
    document the markers are there and there is no bullet, but the blank
    line of the question was emptied: the prompt holds another text, not the
    question. *)
Theorem prompt_empty_context_alters_question :
  let q := "a" ++ NL ++ " " ++ NL ++ "b" in
  prompt q []
  = line1 ++ NL ++ "        " ++ line2 ++ NL ++ NL
    ++ "        Context:" ++ NL ++ NL ++ NL
    ++ "        Question: a" ++ NL ++ NL ++ "b" ++ NL ++ "        Answer:"
  /\ contains q (prompt q []) = false
  /\ contains ("a" ++ NL ++ NL ++ "b") (prompt q []) = true.
Proof. vm_compute. repeat split. Qed.

(** C10 as stated fails with no document when the question has a second
    line at column zero: the eight spaces stay on every template line. *)
Lemma prompt_keeps_indentation_without_documents :
  prompt ("a" ++ NL ++ "b") []
  = line1 ++ NL ++ "        " ++ line2 ++ NL ++ NL
    ++ "        Context:" ++ NL ++ NL ++ NL
    ++ "        Question: a" ++ NL ++ "b" ++ NL ++ "        Answer:".
Proof. reflexivity. Qed.

(** C10, as amended.  With two documents or more, for every question, each
    template line after the first (the second instruction line, Context:,
    the first bullet, Question: and Answer:) keeps its eight spaces and the
    bullets of the second and later documents start at column zero; with
    no document or one, and no line break in the question or the document,
    the eight spaces are removed from every line. *)
Theorem prompt_indentation (question : string) (docs : list string) :
  ((2 <= List.length docs)%nat ->
   prompt question docs
   = line1 ++ NL ++ indent8 ++ line2 ++ NL ++ NL
     ++ indent8 ++ "Context:" ++ NL
     ++ (indent8
         ++ join (NL ++ NL)
              (map (fun d => "- " ++ tail_blanks_emptied d) docs)) ++ NL
     ++ NL
     ++ indent8 ++ "Question: " ++ tail_blanks_emptied question ++ NL
     ++ indent8 ++ "Answer:")
  /\ ((List.length docs <= 1)%nat ->
      has_lf question = false ->
      forallb (fun d => negb (has_lf d)) docs = true ->
      prompt question docs
      = line1 ++ NL ++ line2 ++ NL ++ NL ++ "Context:" ++ NL
        ++ context_block docs ++ NL ++ NL
        ++ "Question: " ++ question ++ NL ++ "Answer:").
Proof.
  split.
  - intros Hn. destruct docs as [|d1 [|d2 ds]]; try (simpl in Hn; lia).
    now rewrite prompt_two_or_more.
  - intros Hn Hq Hdocs. rewrite (prompt_single_line _ _ Hn Hq Hdocs).
    destruct docs as [|d [|d' ds]]; [reflexivity | reflexivity|].
    simpl in Hn. lia.
Qed.

Lemma prompt_indentation_witness :
  prompt "What color is the cat?" ["a red cat"; "a blue dog"; "a green bird"]
  = line1 ++ NL ++ "        " ++ line2 ++ NL ++ NL
    ++ "        Context:" ++ NL
    ++ "        - a red cat" ++ NL ++ NL ++ "- a blue dog" ++ NL ++ NL
    ++ "- a green bird" ++ NL ++ NL
    ++ "        Question: What color is the cat?" ++ NL ++ "        Answer:"
  /\ prompt "What color is the cat?" ["a red cat"]
     = line1 ++ NL ++ line2 ++ NL ++ NL ++ "Context:" ++ NL
       ++ "- a red cat" ++ NL ++ NL
       ++ "Question: What color is the cat?" ++ NL ++ "Answer:".
Proof.
  split.
  - apply (proj1 (prompt_indentation "What color is the cat?"
                    ["a red cat"; "a blue dog"; "a green bird"])).
    simpl. lia.
  - apply (proj2 (prompt_indentation "What color is the cat?" ["a red cat"]));
      [simpl; lia | reflexivity | reflexivity].
Defined.

(** * Further properties *)

Import Script.

(** ** Substrings *)

Lemma prefix_true (a s : string) :
  String.prefix a s = true -> exists b, s = a ++ b.
Proof.
  revert s. induction a as [|x a IH]; intros s H.
  - now exists s.
  - destruct s as [|y s]; [discriminate|]. simpl in H.
    destruct (ascii_dec x y) as [->|]; [|discriminate].
    destruct (IH s H) as (b & ->). now exists b.
Qed.

Lemma contains_true (x s : string) :
  contains x s = true -> exists a b, s = a ++ x ++ b.
Proof.
  induction s as [|c s IH]; rewrite contains_eq; intros H.
  - rewrite orb_false_r in H. destruct (prefix_true _ _ H) as (b & E).
    now exists "", b.
  - apply orb_true_iff in H as [H|H].
    + destruct (prefix_true _ _ H) as (b & E). now exists "", b.
    + destruct (IH H) as (a & b & ->). now exists (String c a), b.
Qed.

Lemma contains_within (x y a b : string) :
  contains x y = true -> contains x (a ++ y ++ b) = true.
Proof.
  intros H. destruct (contains_true _ _ H) as (a' & b' & ->).
  replace (a ++ (a' ++ x ++ b') ++ b) with ((a ++ a') ++ x ++ (b' ++ b))
    by now rewrite !sapp_assoc.
  apply contains_app.
Qed.

Lemma contains_suffix_of (x y a : string) :
  contains x y = true -> contains x (a ++ y) = true.
Proof.
  intros H. rewrite <- (sapp_nil_r y). now apply contains_within.
Qed.

Lemma contains_bullet (d : string) (docs : list string) :
  In d docs ->
  contains ("- " ++ d) (join (NL ++ NL) (map (fun d => "- " ++ d) docs)) = true.
Proof.
  induction docs as [|d' docs IH]; [easy|]. intros Hin. cbn [map].
  destruct docs as [|d'' docs].
  - destruct Hin as [->|[]]. cbn [map join String.concat].
    rewrite <- (sapp_nil_r ("- " ++ d)) at 2. apply contains_prefix.
  - rewrite join_cons by discriminate. destruct Hin as [->|Hin].
    + apply contains_prefix.
    + rewrite <- sapp_assoc. apply contains_suffix_of. now apply IH.
Qed.

(** ** More on the answerer *)

Section AnswererMore.

Variable host : Host.

Abbreviation ollama_cmd := ["ollama"; "run"; "llama3.1"].

(** Under the preflight's success the answerer ends in a returned string
    as soon as the launch raises nothing but instances of [Exception]. *)
Lemma call_llama_returns (question : string) (docs : list string)
  (log : Spawned) :
  (forall e, launch host ollama_cmd (prompt question docs) = Raised e ->
             exc_is_Exception e = true) ->
  exists answer log',
    call_llama_with_context host question docs log = (Returned answer, log').
Proof.
  intros Hexc. destruct (which host "ollama") as [path|] eqn:Hw.
  - rewrite (call_llama_available _ _ _ _ _ Hw). cbn zeta.
    destruct (launch host ollama_cmd (prompt question docs)) as [proc|e].
    + destruct (returncode proc =? 0)%Z; eexists; eexists; reflexivity.
    + rewrite (Hexc e eq_refl). eexists. eexists. reflexivity.
  - rewrite (call_llama_missing _ _ _ _ Hw). eexists. eexists. reflexivity.
Qed.

(** The log after a run that passed the preflight. *)
Lemma call_llama_log (question : string) (docs : list string)
  (log : Spawned) (path : string) :
  which host "ollama" = Some path ->
  snd (call_llama_with_context host question docs log)
  = (log ++ [(ollama_cmd, prompt question docs)])%list.
Proof.
  intros Hw. rewrite (call_llama_available _ _ _ _ _ Hw). cbn zeta.
  destruct (launch host ollama_cmd (prompt question docs)) as [proc|e].
  - now destruct (returncode proc =? 0)%Z.
  - now destruct (exc_is_Exception e).
Qed.

(** X1. When the executable is found, the answerer starts one process and
    no more, whatever becomes of it: the command line is ollama run
    llama3.1 and the standard input is the prompt. *)
Theorem call_llama_starts_one_process (question : string)
  (docs : list string) (log : Spawned) (path : string) :
  which host "ollama" = Some path ->
  snd (call_llama_with_context host question docs log)
  = (log ++ [(["ollama"; "run"; "llama3.1"], prompt question docs)])%list.
Proof. apply call_llama_log. Qed.

(** X2. A fault of the launch that is no instance of [Exception] is not
    caught: the answerer raises it, after the one call it made. *)
Theorem call_llama_passes_other_faults (question : string)
  (docs : list string) (log : Spawned) (path : string) (e : PyExc) :
  which host "ollama" = Some path ->
  launch host ollama_cmd (prompt question docs) = Raised e ->
  exc_is_Exception e = false ->
  call_llama_with_context host question docs log
  = (Raised e, (log ++ [(ollama_cmd, prompt question docs)])%list).
Proof.
  intros Hw Hl He. rewrite (call_llama_available _ _ _ _ _ Hw). cbn zeta.
  now rewrite Hl, He.
Qed.

End AnswererMore.

Lemma call_llama_starts_one_process_witness :
  snd (call_llama_with_context
         (stub_host (Some "/usr/local/bin/ollama")
                    (Returned {| returncode := 2; stdout := "";
                                 stderr := "model not found" |}))
         "What color is the cat?" ["a red cat"] [])
  = [(["ollama"; "run"; "llama3.1"],
      prompt "What color is the cat?" ["a red cat"])].
Proof.
  exact (call_llama_starts_one_process
           (stub_host (Some "/usr/local/bin/ollama")
                      (Returned {| returncode := 2; stdout := "";
                                   stderr := "model not found" |}))
           "What color is the cat?" ["a red cat"] []
           "/usr/local/bin/ollama" eq_refl).
Defined.

Lemma call_llama_passes_other_faults_witness :
  fst (call_llama_with_context
         (stub_host (Some "/usr/local/bin/ollama") (Raised KeyboardInterrupt))
         "What color is the cat?" ["a red cat"] [])
  = Raised KeyboardInterrupt.
Proof.
  exact (f_equal fst
           (call_llama_passes_other_faults
              (stub_host (Some "/usr/local/bin/ollama")
                         (Raised KeyboardInterrupt))
              "What color is the cat?" ["a red cat"] []
              "/usr/local/bin/ollama" KeyboardInterrupt
              eq_refl eq_refl eq_refl)).
Defined.

(** ** More on the prompt *)

(** X3. Whatever the question and the documents, the prompt neither starts
    nor ends with whitespace. *)
Theorem prompt_has_no_outer_whitespace (question : string)
  (docs : list string) :
  starts_with_space (prompt question docs) = false
  /\ ends_with_space (prompt question docs) = false.
Proof.
  unfold prompt.
  destruct (strip_spec (dedent (prompt_template question (context_block docs))))
    as (l & r & _ & _ & _ & Hs & He).
  now split.
Qed.

(** X4. When the question and the documents hold one line each, the prompt
    is the header, one bullet per document in input order, the question and
    the cue, every template line with the same indentation (none, or the
    eight spaces of the source); the question stands in it as given behind
    its marker, and so does every document behind a bullet. *)
Theorem prompt_holds_one_line_values (question : string)
  (docs : list string) :
  has_lf question = false ->
  forallb (fun d => negb (has_lf d)) docs = true ->
  (exists indent,
     (indent = "" \/ indent = indent8)
     /\ prompt question docs
        = prompt_layout indent (map (fun d => "- " ++ d) docs) question)
  /\ contains ("Question: " ++ question ++ NL) (prompt question docs) = true
  /\ (forall d, In d docs -> contains ("- " ++ d) (prompt question docs) = true).
Proof.
  intros Hq Hdocs.
  pose proof (prompt_structure_single_line question docs Hq Hdocs) as E.
  set (indent := if (2 <=? List.length docs)%nat then indent8 else "") in E.
  split; [|split].
  - exists indent. split; [|exact E].
    unfold indent. destruct (2 <=? List.length docs)%nat; [now right | now left].
  - rewrite E. unfold prompt_layout.
    set (x := "Question: " ++ question ++ NL).
    replace (line1 ++ NL ++ indent ++ line2 ++ NL ++ NL ++ indent ++ "Context:"
             ++ NL ++ context_lines indent (map bullet docs) ++ NL ++ NL
             ++ indent ++ "Question: " ++ question ++ NL ++ indent ++ "Answer:")
      with ((line1 ++ NL ++ indent ++ line2 ++ NL ++ NL ++ indent ++ "Context:"
             ++ NL ++ context_lines indent (map bullet docs) ++ NL ++ NL
             ++ indent) ++ x ++ indent ++ "Answer:").
    + apply contains_app.
    + unfold x. rewrite !sapp_assoc. reflexivity.
  - intros d Hin. rewrite E. unfold prompt_layout.
    destruct docs as [|d0 docs]; [easy|].
    cbn [context_lines map].
    set (block := join (NL ++ NL) (bullet d0 :: map bullet docs)).
    assert (Hb : contains ("- " ++ d) block = true)
      by (apply (contains_bullet d (d0 :: docs)); exact Hin).
    replace (line1 ++ NL ++ indent ++ line2 ++ NL ++ NL ++ indent ++ "Context:"
             ++ NL ++ (indent ++ block) ++ NL ++ NL
             ++ indent ++ "Question: " ++ question ++ NL ++ indent ++ "Answer:")
      with ((line1 ++ NL ++ indent ++ line2 ++ NL ++ NL ++ indent ++ "Context:"
             ++ NL ++ indent) ++ block
            ++ (NL ++ NL ++ indent ++ "Question: " ++ question ++ NL
                ++ indent ++ "Answer:")).
    + now apply contains_within.
    + rewrite !sapp_assoc. reflexivity.
Qed.

Lemma prompt_holds_one_line_values_witness :
  contains ("Question: What color is the cat?" ++ NL)
    (prompt "What color is the cat?" ["a red cat"; "a blue dog"]) = true
  /\ contains "- a blue dog"
       (prompt "What color is the cat?" ["a red cat"; "a blue dog"]) = true.
Proof.
  destruct (prompt_holds_one_line_values "What color is the cat?"
              ["a red cat"; "a blue dog"] eq_refl eq_refl)
    as (_ & Hq & Hd).
  split; [exact Hq|]. apply (Hd "a blue dog"). right. now left.
Defined.

(** ** More on the identifiers *)

Lemma firstn_seq_le (n m start : nat) :
  (n <= m)%nat -> firstn n (seq start m) = seq start n.
Proof.
  revert m start. induction n as [|n IH]; intros m start Hn; [reflexivity|].
  destruct m as [|m]; [lia|]. cbn [seq firstn]. f_equal. apply IH. lia.
Qed.

(** X5. The identifiers depend on the positions only: a batch that is no
    longer than another one gets the first identifiers of that one again,
    in order, so every identifier of a second run into the same collection
    was used by the first. *)
Theorem sentence_ids_are_reused (first second : list string) :
  (List.length second <= List.length first)%nat ->
  sentence_ids second = firstn (List.length second) (sentence_ids first)
  /\ incl (sentence_ids second) (sentence_ids first).
Proof.
  intros Hn.
  assert (E : sentence_ids second
              = firstn (List.length second) (sentence_ids first)).
  { unfold sentence_ids, range. rewrite firstn_map.
    now rewrite (firstn_seq_le _ _ _ Hn). }
  split; [exact E|]. rewrite E. intros x Hx.
  rewrite <- (firstn_skipn (List.length second) (sentence_ids first)).
  apply in_or_app. now left.
Qed.

Lemma sentence_ids_are_reused_witness :
  sentence_ids ["a new sentence"]
  = firstn 1 (sentence_ids ["a red cat"; "a blue dog"; "a green bird"])
  /\ incl (sentence_ids ["a new sentence"])
       (sentence_ids ["a red cat"; "a blue dog"; "a green bird"]).
Proof.
  apply (sentence_ids_are_reused
           ["a red cat"; "a blue dog"; "a green bird"] ["a new sentence"]).
  simpl. lia.
Defined.

(** ** Reading the query result *)

(** X6. The documents the script takes from a query result are not empty
    only when the result has a documents entry that is a list whose first
    element is the list taken; without the entry, with None or an empty
    list under it, or with a first element that is no list, they are
    empty. *)
Theorem top_docs_come_from_the_first_row (results : QueryResult)
  (docs : list string) :
  docs <> [] ->
  (top_docs_of results = docs
   <-> exists rest,
         dict_get "documents" VNone results = VRows (RowList docs :: rest)).
Proof.
  intros Hdocs. unfold top_docs_of.
  induction results as [|[k v] results IH].
  - cbn. split; [congruence | intros (rest & E); discriminate].
  - cbn [dict_get]. destruct (String.eqb k "documents"); [|exact IH].
    destruct v as [|[|[d|] rows]]; cbn zeta iota beta.
    + split; [congruence | intros (rest & E); discriminate].
    + split; [congruence | intros (rest & E); discriminate].
    + split.
      * intros ->. now exists rows.
      * intros (rest & E). now injection E.
    + split; [congruence | intros (rest & E); discriminate].
Qed.

Lemma top_docs_come_from_the_first_row_witness :
  top_docs_of [("ids", VRows [RowList ["sentence-2"]]);
               ("documents", VRows [RowList ["a green bird"]])]
  = ["a green bird"]
  <-> exists rest,
        dict_get "documents" VNone
          [("ids", VRows [RowList ["sentence-2"]]);
           ("documents", VRows [RowList ["a green bird"]])]
        = VRows (RowList ["a green bird"] :: rest).
Proof.
  apply (top_docs_come_from_the_first_row
           [("ids", VRows [RowList ["sentence-2"]]);
            ("documents", VRows [RowList ["a green bird"]])]
           ["a green bird"]).
  discriminate.
Defined.

(** ** The script's runs *)

Section ScriptFacts.

Context {S Client Collection : Type}.
Variable vs : VectorStore S Client Collection.
Variable query :
  Collection -> list string -> nat -> S -> outcome QueryResult * S.
Variable host : Host.

Abbreviation Run' := (Run S Client Collection).
Abbreviation script := (main vs query host).
Abbreviation index_run :=
  (add_sentences_to_chromadb vs sentences default_collection_name).

Lemma enumerate_cons (d : string) (docs : list string) (start : nat) :
  enumerate (d :: docs) start = (start, d) :: enumerate docs (Datatypes.S start).
Proof. reflexivity. Qed.

(** The loop writes the numbered lines and touches nothing else. *)
Lemma for_each_prints_listing (docs : list string) (start : nat) (r : Run') :
  for_each S Client Collection (enumerate docs start)
    (fun p => print S Client Collection
                ("  " ++ str_int (Z.of_nat (fst p)) ++ ". " ++ snd p)) r
  = (Returned tt,
     {| run_db := run_db r; run_queries := run_queries r;
        run_spawned := run_spawned r;
        run_out := run_out r ++ listing start docs |}).
Proof.
  revert start r. induction docs as [|d docs IH]; intros start r.
  - cbn. rewrite sapp_nil_r. now destruct r.
  - rewrite enumerate_cons. cbn [for_each]. unfold bind at 1.
    unfold print at 1. cbn [fst snd]. rewrite IH. cbn [run_db run_queries
      run_spawned run_out listing]. now rewrite !sapp_assoc.
Qed.

(** The indexer under a fault of the store. *)
Lemma index_fault_run (sentences : list string) (name : string)
  (w : World S Client Collection) (e : PyExc)
  (made : list (StoreCall Client Collection)) :
  store_fault vs sentences name w e made ->
  exists w', add_sentences_to_chromadb vs sentences name w = (Raised e, w')
             /\ calls w' = (calls w ++ made)%list.
Proof.
  intros [e' s1 Hcl | cl s1 e' s2 Hcl Hc | cl s1 c s2 e' s3 Hcl Hc Ha].
  - rewrite (index_client_fails _ _ _ _ _ _ Hcl). now eexists.
  - rewrite (index_create_fails _ _ _ _ _ _ _ _ Hcl Hc). now eexists.
  - rewrite (index_after_create _ _ _ _ _ _ _ _ Hcl Hc). cbn. rewrite Ha.
    now eexists.
Qed.

(** The script when the indexer raises, and when the query does. *)
Lemma main_index_raises (r : Run') (e : PyExc)
  (w' : World S Client Collection) :
  index_run (run_db r) = (Raised e, w') ->
  script r
  = (Raised e,
     {| run_db := w'; run_queries := run_queries r;
        run_spawned := run_spawned r; run_out := run_out r |}).
Proof.
  intros Hidx. unfold main. unfold bind at 1. unfold on_db at 1.
  now rewrite Hidx.
Qed.

Lemma main_query_raises (r : Run') (c : Collection)
  (w1 : World S Client Collection) (e : PyExc) (s2 : S) :
  index_run (run_db r) = (Returned c, w1) ->
  query c [user_question] 3 (store w1) = (Raised e, s2) ->
  script r
  = (Raised e,
     {| run_db := {| store := s2; calls := calls w1 |};
        run_queries := (run_queries r ++ [(c, [user_question], 3)])%list;
        run_spawned := run_spawned r; run_out := run_out r |}).
Proof.
  intros Hidx Hq. unfold main. unfold bind at 1. unfold on_db at 1.
  rewrite Hidx. unfold bind at 1. unfold collection_query at 1.
  cbn [run_db store calls run_queries run_spawned run_out]. now rewrite Hq.
Qed.

(** The script once the documents are retrieved: the listing is written,
    the model is asked, and what it returns is printed. *)
Lemma main_after_retrieval (r : Run') (c : Collection)
  (w1 : World S Client Collection) (results : QueryResult) (s2 : S) :
  index_run (run_db r) = (Returned c, w1) ->
  query c [user_question] 3 (store w1) = (Returned results, s2) ->
  script r
  = let docs := top_docs_of results in
    let db := {| store := s2; calls := calls w1 |} in
    let queries := (run_queries r ++ [(c, [user_question], 3)])%list in
    let out := run_out r ++ "Retrieved context:" ++ NL ++ listing 1 docs
               ++ NL ++ "Asking llama3.1 with retrieved context..." ++ NL
               ++ NL in
    match call_llama_with_context host user_question docs (run_spawned r) with
    | (Returned answer, log) =>
        (Returned tt,
         {| run_db := db; run_queries := queries; run_spawned := log;
            run_out := out ++ "Answer:" ++ NL ++ answer ++ NL |})
    | (Raised e, log) =>
        (Raised e,
         {| run_db := db; run_queries := queries; run_spawned := log;
            run_out := out |})
    end.
Proof.
  intros Hidx Hq. unfold main. unfold bind at 1. unfold on_db at 1.
  rewrite Hidx. unfold bind at 1. unfold collection_query at 1.
  cbn [run_db store calls run_queries run_spawned run_out]. rewrite Hq.
  cbn zeta. unfold bind at 1. unfold print at 1.
  unfold bind at 1. rewrite for_each_prints_listing.
  cbn [run_db run_queries run_spawned run_out].
  unfold bind at 1. unfold print at 1.
  cbn [run_db run_queries run_spawned run_out].
  unfold bind at 1. unfold on_host at 1.
  cbn [run_db run_queries run_spawned run_out].
  destruct (call_llama_with_context host user_question (top_docs_of results)
              (run_spawned r)) as [[answer|e] log].
  - unfold print. cbn [run_db run_queries run_spawned run_out].
    rewrite !sapp_assoc. reflexivity.
  - rewrite !sapp_assoc. reflexivity.
Qed.

(** X7. When the store raises while the sentences are indexed, the script
    raises that fault at once: nothing was written to standard output, the
    collection was not queried and no process was started. *)
Theorem main_stops_on_store_fault (r : Run') (e : PyExc)
  (made : list (StoreCall Client Collection)) :
  store_fault vs sentences default_collection_name (run_db r) e made ->
  fst (script r) = Raised e
  /\ run_out (snd (script r)) = run_out r
  /\ run_queries (snd (script r)) = run_queries r
  /\ run_spawned (snd (script r)) = run_spawned r
  /\ calls (run_db (snd (script r))) = (calls (run_db r) ++ made)%list.
Proof.
  intros Hf. destruct (index_fault_run _ _ _ _ _ Hf) as (w' & Hidx & Hcalls).
  rewrite (main_index_raises _ _ _ Hidx). cbn. now repeat split.
Qed.

(** X8. When the query raises, the script raises that fault after the
    sentences were indexed and the one query was made: nothing was written
    to standard output and no process was started. *)
Theorem main_stops_on_query_fault (r : Run') (c : Collection)
  (w1 : World S Client Collection) (e : PyExc) (s2 : S) :
  index_run (run_db r) = (Returned c, w1) ->
  query c [user_question] 3 (store w1) = (Raised e, s2) ->
  fst (script r) = Raised e
  /\ run_out (snd (script r)) = run_out r
  /\ run_spawned (snd (script r)) = run_spawned r
  /\ run_queries (snd (script r))
     = (run_queries r ++ [(c, [user_question], 3)])%list
  /\ calls (run_db (snd (script r))) = calls w1.
Proof.
  intros Hidx Hq. rewrite (main_query_raises _ _ _ _ _ Hidx Hq). cbn.
  now repeat split.
Qed.

(** X9. Once the documents are retrieved the script ends without a fault,
    whatever the model's side does short of a fault that is no instance of
    [Exception]: it writes the heading, the documents numbered from 1 in the
    order of the result, the notice, and under Answer: the string the
    answerer returned, be it the answer or a diagnostic; and it starts one
    process at most. *)
Theorem main_prints_what_the_answerer_returns (r : Run') (c : Collection)
  (w1 : World S Client Collection) (results : QueryResult) (s2 : S) :
  index_run (run_db r) = (Returned c, w1) ->
  query c [user_question] 3 (store w1) = (Returned results, s2) ->
  (forall e,
     launch host ["ollama"; "run"; "llama3.1"]
       (prompt user_question (top_docs_of results)) = Raised e ->
     exc_is_Exception e = true) ->
  exists answer,
    fst (call_llama_with_context host user_question (top_docs_of results)
           (run_spawned r)) = Returned answer
    /\ fst (script r) = Returned tt
    /\ run_out (snd (script r))
       = run_out r ++ "Retrieved context:" ++ NL
         ++ listing 1 (top_docs_of results)
         ++ NL ++ "Asking llama3.1 with retrieved context..." ++ NL ++ NL
         ++ "Answer:" ++ NL ++ answer ++ NL
    /\ (List.length (run_spawned (snd (script r)))
        <= Datatypes.S (List.length (run_spawned r)))%nat.
Proof.
  intros Hidx Hq Hexc. rewrite (main_after_retrieval _ _ _ _ _ Hidx Hq).
  cbn zeta.
  destruct (call_llama_returns host user_question (top_docs_of results)
              (run_spawned r) Hexc) as (answer & log & Hcall).
  assert (Hlog : (List.length log <= Datatypes.S (List.length (run_spawned r)))%nat).
  { apply (f_equal snd) in Hcall. cbn [snd] in Hcall. subst log.
    destruct (which host "ollama") as [path|] eqn:Hw.
    - rewrite (call_llama_log _ _ _ _ _ Hw).
      rewrite length_app. simpl. lia.
    - rewrite (call_llama_missing _ _ _ _ Hw). simpl. lia. }
  rewrite Hcall. exists answer. cbn [fst snd run_out run_spawned].
  repeat split; try assumption. now rewrite !sapp_assoc.
Qed.

(** X10. Without the ollama executable the script still indexes and
    queries the store and writes the listing; it prints the install message
    under Answer: and starts no process. *)
Theorem main_without_ollama (r : Run') (c : Collection)
  (w1 : World S Client Collection) (results : QueryResult) (s2 : S) :
  index_run (run_db r) = (Returned c, w1) ->
  query c [user_question] 3 (store w1) = (Returned results, s2) ->
  which host "ollama" = None ->
  fst (script r) = Returned tt
  /\ run_out (snd (script r))
     = run_out r ++ "Retrieved context:" ++ NL
       ++ listing 1 (top_docs_of results)
       ++ NL ++ "Asking llama3.1 with retrieved context..." ++ NL ++ NL
       ++ "Answer:" ++ NL ++ missing_message ++ NL
  /\ run_spawned (snd (script r)) = run_spawned r
  /\ run_queries (snd (script r))
     = (run_queries r ++ [(c, [user_question], 3)])%list.
Proof.
  intros Hidx Hq Hw. rewrite (main_after_retrieval _ _ _ _ _ Hidx Hq).
  cbn zeta. rewrite (call_llama_missing _ _ _ _ Hw).
  cbn [fst snd run_out run_spawned run_queries].
  repeat split. now rewrite !sapp_assoc.
Qed.

End ScriptFacts.

(** Runs of the script on the stub store. *)

Lemma main_stops_on_store_fault_witness :
  fst (main unreachable_store stub_query
         (stub_host None (Raised KeyboardInterrupt)) start)
  = Raised (ValueError "Could not connect to the store")
  /\ run_out (snd (main unreachable_store stub_query
                     (stub_host None (Raised KeyboardInterrupt)) start))
     = "".
Proof.
  destruct (main_stops_on_store_fault unreachable_store stub_query
              (stub_host None (Raised KeyboardInterrupt)) start
              (ValueError "Could not connect to the store")
              [CallClient false]) as (Hr & Hout & _).
  - apply (fault_client _ _ _ unreachable_store sentences
             default_collection_name (run_db start)
             (ValueError "Could not connect to the store") []).
    reflexivity.
  - split; [exact Hr | exact Hout].
Defined.

Lemma main_stops_on_query_fault_witness :
  fst (main (stub_store true) failing_query
         (stub_host None (Raised KeyboardInterrupt)) start)
  = Raised (ValueError "Query failed")
  /\ run_out (snd (main (stub_store true) failing_query
                     (stub_host None (Raised KeyboardInterrupt)) start))
     = "".
Proof.
  destruct (main_stops_on_query_fault (stub_store true) failing_query
              (stub_host None (Raised KeyboardInterrupt)) start
              default_collection_name
              (snd (add_sentences_to_chromadb (stub_store true) sentences
                      default_collection_name fresh))
              (ValueError "Query failed")
              (store (snd (add_sentences_to_chromadb (stub_store true)
                             sentences default_collection_name fresh)))
              eq_refl eq_refl) as (Hr & Hout & _).
  split; [exact Hr | exact Hout].
Defined.

Lemma main_prints_what_the_answerer_returns_witness :
  let host := stub_host (Some "/usr/local/bin/ollama")
                (Returned {| returncode := 0; stdout := " Pasta. " ++ NL;
                             stderr := "" |}) in
  fst (main (stub_store true) stub_query host start) = Returned tt
  /\ run_out (snd (main (stub_store true) stub_query host start))
     = "Retrieved context:" ++ NL
       ++ "  1. How are you?" ++ NL
       ++ "  2. What did you do today?" ++ NL
       ++ "  3. What did you have for dinner?" ++ NL
       ++ NL ++ "Asking llama3.1 with retrieved context..." ++ NL ++ NL
       ++ "Answer:" ++ NL ++ "Pasta." ++ NL.
Proof.
  intros host.
  set (w1 := snd (add_sentences_to_chromadb (stub_store true) sentences
                    default_collection_name fresh)).
  destruct (main_prints_what_the_answerer_returns (stub_store true)
              stub_query host start default_collection_name w1
              [("ids", VRows [RowList ["sentence-0"; "sentence-1";
                                        "sentence-2"]]);
               ("documents", VRows [RowList (firstn 3 sentences)])]
              (store w1)) as (answer & Hcall & Hr & Hout & _).
  - reflexivity.
  - reflexivity.
  - intros e H. discriminate H.
  - injection Hcall as <-. split; [exact Hr | exact Hout].
Defined.

Lemma main_without_ollama_witness :
  let host := stub_host None (Raised KeyboardInterrupt) in
  fst (main (stub_store true) stub_query host start) = Returned tt
  /\ run_out (snd (main (stub_store true) stub_query host start))
     = "Retrieved context:" ++ NL
       ++ "  1. How are you?" ++ NL
       ++ "  2. What did you do today?" ++ NL
       ++ "  3. What did you have for dinner?" ++ NL
       ++ NL ++ "Asking llama3.1 with retrieved context..." ++ NL ++ NL
       ++ "Answer:" ++ NL ++ missing_message ++ NL
  /\ run_spawned (snd (main (stub_store true) stub_query host start)) = [].
Proof.
  intros host.
  set (w1 := snd (add_sentences_to_chromadb (stub_store true) sentences
                    default_collection_name fresh)).
  destruct (main_without_ollama (stub_store true) stub_query host start
              default_collection_name w1
              [("ids", VRows [RowList ["sentence-0"; "sentence-1";
                                        "sentence-2"]]);
               ("documents", VRows [RowList (firstn 3 sentences)])]
              (store w1) eq_refl eq_refl eq_refl)
    as (Hr & Hout & Hsp & _).
  split; [exact Hr|]. split; [exact Hout | exact Hsp].
Defined.

(** ** What the script hands to the model *)

Section ScriptPrompt.

Context {S Client Collection : Type}.
Variable vs : VectorStore S Client Collection.
Variable query :
  Collection -> list string -> nat -> S -> outcome QueryResult * S.
Variable host : Host.

(** X11. When the documents are retrieved and the executable is found, the
    script starts one process, after the query: its standard input is the
    prompt built from the question and from the very documents that were
    listed, in the order of the result. *)
Theorem main_asks_with_the_listed_documents
  (r : Run S Client Collection) (c : Collection)
  (w1 : World S Client Collection) (results : QueryResult) (s2 : S)
  (path : string) :
  add_sentences_to_chromadb vs sentences default_collection_name (run_db r)
  = (Returned c, w1) ->
  query c [user_question] 3 (store w1) = (Returned results, s2) ->
  which host "ollama" = Some path ->
  run_spawned (snd (main vs query host r))
  = (run_spawned r
     ++ [(["ollama"; "run"; "llama3.1"],
          prompt user_question (top_docs_of results))])%list
  /\ exists rest,
       run_out (snd (main vs query host r))
       = run_out r ++ "Retrieved context:" ++ NL
         ++ listing 1 (top_docs_of results) ++ rest.
Proof.
  intros Hidx Hq Hw. rewrite (main_after_retrieval _ _ _ _ _ _ _ _ Hidx Hq).
  cbn zeta.
  pose proof (call_llama_log host user_question (top_docs_of results)
                (run_spawned r) path Hw) as Hlog.
  destruct (call_llama_with_context host user_question (top_docs_of results)
              (run_spawned r)) as [[answer|e] log]; cbn [snd] in Hlog;
    cbn [snd run_spawned run_out]; (split; [exact Hlog|]);
    eexists; rewrite ?sapp_assoc; reflexivity.
Qed.

End ScriptPrompt.

Lemma main_asks_with_the_listed_documents_witness :
  let host := stub_host (Some "/usr/local/bin/ollama")
                (Returned {| returncode := 0; stdout := " Pasta. " ++ NL;
                             stderr := "" |}) in
  run_spawned (snd (main (stub_store true) stub_query host start))
  = [(["ollama"; "run"; "llama3.1"],
      prompt user_question (firstn 3 sentences))].
Proof.
  intros host.
  set (w1 := snd (add_sentences_to_chromadb (stub_store true) sentences
                    default_collection_name fresh)).
  exact (proj1 (main_asks_with_the_listed_documents (stub_store true)
                  stub_query host start default_collection_name w1
                  [("ids", VRows [RowList ["sentence-0"; "sentence-1";
                                            "sentence-2"]]);
                   ("documents", VRows [RowList (firstn 3 sentences)])]
                  (store w1) "/usr/local/bin/ollama"
                  eq_refl eq_refl eq_refl)).
Defined.
